(** * Flexyn workout backend: the plan relay of [server.js]

    A shallow embedding of the one route that does work,
    [POST /api/generate-workout-plan], together with the parts of the
    JavaScript runtime it leans on: truthiness, [ToString], property reads,
    [JSON.parse] and [fetch].  Strings are sequences of UTF-16 code units,
    numbers are IEEE-754 binary64 values, and the handler runs in a small
    state-and-exception monad whose state records the outbound calls, the
    diagnostic log and the replies sent. *)

From Stdlib Require Import ZArith NArith List String Ascii Bool Lia.
From Stdlib Require Import SpecFloat.
Import ListNotations.

Set Implicit Arguments.

(** ** Strings *)

Module JsString.

(** A JavaScript string is a finite sequence of 16-bit code units. *)
Definition code_unit := N.
Definition jsstring := list code_unit.

(** An ASCII literal, one code unit per character. *)
Definition lit (s : string) : jsstring :=
  List.map N_of_ascii (list_ascii_of_string s).

(** The double quote, the line feed and the en dash of the template. *)
Definition DQUOTE : jsstring := [34%N].
Definition LF : jsstring := [10%N].
Definition EN_DASH : jsstring := [8211%N].

Definition quoted (s : string) : jsstring := DQUOTE ++ lit s ++ DQUOTE.

Fixpoint eqb (a b : jsstring) : bool :=
  match a, b with
  | [], [] => true
  | x :: a', y :: b' => N.eqb x y && eqb a' b'
  | _, _ => false
  end.

Definition is_empty (s : jsstring) : bool :=
  match s with [] => true | _ :: _ => false end.

(** [contains s t]: [t] occurs in [s] as a contiguous run of code units. *)
Definition contains (s t : jsstring) : Prop :=
  exists pre post, s = pre ++ t ++ post.

Fixpoint starts_with (s t : jsstring) : bool :=
  match t, s with
  | [], _ => true
  | y :: t', x :: s' => N.eqb x y && starts_with s' t'
  | _ :: _, [] => false
  end.

(** The executable search behind [contains]. *)
Fixpoint includes (s t : jsstring) : bool :=
  starts_with s t ||
  match s with
  | [] => false
  | _ :: s' => includes s' t
  end.

End JsString.
Import JsString.

(** ** Numbers *)

Module JsNumber.

(** The Number type: binary64, that is [prec = 53] and [emax = 1024].
    The Numbers proper are the values that [valid_binary prec emax]
    accepts; every function below yields such values, and [toString] is
    meant on them. *)
Definition number := spec_float.
Definition prec : Z := 53.
Definition emax : Z := 1024.

Definition NaN : number := S754_nan.

Fixpoint uint_units (d : Decimal.uint) : jsstring :=
  match d with
  | Decimal.Nil => []
  | Decimal.D0 d' => 48%N :: uint_units d'
  | Decimal.D1 d' => 49%N :: uint_units d'
  | Decimal.D2 d' => 50%N :: uint_units d'
  | Decimal.D3 d' => 51%N :: uint_units d'
  | Decimal.D4 d' => 52%N :: uint_units d'
  | Decimal.D5 d' => 53%N :: uint_units d'
  | Decimal.D6 d' => 54%N :: uint_units d'
  | Decimal.D7 d' => 55%N :: uint_units d'
  | Decimal.D8 d' => 56%N :: uint_units d'
  | Decimal.D9 d' => 57%N :: uint_units d'
  end.

(** The decimal digits of a natural number, most significant first. *)
Definition digits (n : N) : jsstring := uint_units (N.to_uint n).

(** The Number nearest to [(-1)^neg * m * 10^x], ties to even. *)
Definition nearest (neg : bool) (m : positive) (x : Z) : number :=
  match x with
  | Zneg k =>
      SFdiv prec emax (S754_finite neg m 0)
                      (S754_finite false (Pos.pow 10 k) 0)
  | _ => binary_round prec emax neg (m * Z.to_pos (10 ^ x)) 0
  end.

(** The value a decimal literal denotes, [(-1)^neg * d * 10^x] rounded to
    the nearest Number.  Beyond [10^400] every literal is infinite and
    below [10^-400] every literal is zero, so the exponent is brought
    into that range before any power of ten is computed. *)
Definition of_decimal (neg : bool) (d : N) (x : Z) : number :=
  match d with
  | N0 => S754_zero neg
  | Npos m =>
      let width := Z.of_nat (List.length (digits d)) in
      nearest neg m (Z.max (Z.min x 400) (- (width + 400)))
  end.

Definition of_Z (z : Z) : number :=
  of_decimal (z <? 0)%Z (Z.abs_N z) 0.

(** ToBoolean on a Number: false for [+0], [-0] and [NaN]. *)
Definition truthy (x : number) : bool :=
  match x with
  | S754_zero _ | S754_nan => false
  | S754_infinity _ | S754_finite _ _ _ => true
  end.

(** *** Number::toString, radix 10 *)

Definition zeros (n : Z) : jsstring := List.repeat 48%N (Z.to_nat n).

(** [m * 2^e / 10^q] as a fraction of two positive integers. *)
Definition scaled (m : positive) (e q : Z) : Z * Z :=
  ((Zpos m * 2 ^ Z.max e 0 * 10 ^ Z.max (- q) 0)%Z,
   (2 ^ Z.max (- e) 0 * 10 ^ Z.max q 0)%Z).

(** The integer [s] nearest to [m * 2^e / 10^q] (the even one on a tie)
    for which [s * 10^q] reads back as the same Number, if either
    neighbour does. *)
Definition candidate (m : positive) (e q : Z) : option N :=
  let '(num, den) := scaled m e q in
  let lo := (num / den)%Z in
  let r := (num mod den)%Z in
  let hi := (lo + 1)%Z in
  let back s :=
    match of_decimal false (Z.to_N s) q with
    | S754_finite _ m' e' => (0 <? s)%Z && Pos.eqb m' m && Z.eqb e' e
    | _ => false
    end in
  let first := if (r =? 0)%Z then lo
               else match (2 * r ?= den)%Z with
                    | Lt => lo
                    | Gt => hi
                    | Eq => if Z.even lo then lo else hi
                    end in
  let second := if (first =? lo)%Z then hi else lo in
  if back first then Some (Z.to_N first)
  else if back second then Some (Z.to_N second)
  else None.

(** Search downwards from [10^q] for the shortest digit string. *)
Fixpoint shortest (fuel : nat) (m : positive) (e q : Z) : N * Z :=
  match candidate m e q with
  | Some s => (s, q)
  | None =>
      match fuel with
      | O => (Npos m, q)
      | S fuel' => shortest fuel' m e (q - 1)
      end
  end.

(** No power of ten above [10^(digits - 1)] can carry a nonzero digit. *)
Definition start_exponent (m : positive) (e : Z) : Z :=
  let '(num, den) := scaled m e 0 in
  Z.of_nat (List.length (digits (Z.to_N (num / den)))).

Definition exponent_part (n : Z) : jsstring :=
  lit "e" ++ (if (n - 1 <? 0)%Z then lit "-" else lit "+")
          ++ digits (Z.abs_N (n - 1)).

(** Steps 7 to 11 of Number::toString: [ds] are the [k] digits of [s]
    and the value is [s * 10^(n - k)]. *)
Definition layout (ds : jsstring) (n : Z) : jsstring :=
  let k := Z.of_nat (List.length ds) in
  if ((k <=? n) && (n <=? 21))%Z then ds ++ zeros (n - k)
  else if ((0 <? n) && (n <=? 21))%Z then
    firstn (Z.to_nat n) ds ++ lit "." ++ skipn (Z.to_nat n) ds
  else if ((-6 <? n) && (n <=? 0))%Z then
    lit "0." ++ zeros (- n) ++ ds
  else if (k =? 1)%Z then ds ++ exponent_part n
  else firstn 1 ds ++ lit "." ++ skipn 1 ds ++ exponent_part n.

Definition positive_toString (m : positive) (e : Z) : jsstring :=
  let q0 := start_exponent m e in
  let '(s, q) := shortest (Z.to_nat (q0 + 1100)) m e q0 in
  let ds := digits s in
  layout ds (Z.of_nat (List.length ds) + q).

Definition toString (x : number) : jsstring :=
  match x with
  | S754_nan => lit "NaN"
  | S754_zero _ => lit "0"
  | S754_infinity false => lit "Infinity"
  | S754_infinity true => lit "-Infinity"
  | S754_finite false m e => positive_toString m e
  | S754_finite true m e => lit "-" ++ positive_toString m e
  end.

End JsNumber.

(** ** Values *)

Module JsValue.

Import JsNumber.

(** The values that JSON text can denote, and [undefined]. *)
#[warnings="-register-all"]
Inductive value : Type :=
| VUndefined
| VNull
| VBool (b : bool)
| VNum (x : number)
| VStr (s : jsstring)
| VArr (elems : list value)
| VObj (props : list (jsstring * value)).

(** ToBoolean. *)
Definition truthy (v : value) : bool :=
  match v with
  | VUndefined | VNull => false
  | VBool b => b
  | VNum x => JsNumber.truthy x
  | VStr s => negb (is_empty s)
  | VArr _ | VObj _ => true
  end.

(** [a || b]. *)
Definition or_else (a b : value) : value := if truthy a then a else b.

Definition nullish (v : value) : bool :=
  match v with
  | VUndefined | VNull => true
  | _ => false
  end.

Definition is_array (v : value) : bool :=
  match v with
  | VArr _ => true
  | _ => false
  end.

Fixpoint lookup (k : jsstring) (props : list (jsstring * value))
  : option value :=
  match props with
  | [] => None
  | (k', v) :: rest => if JsString.eqb k k' then Some v else lookup k rest
  end.

(** ToString; [None] stands for a TypeError.  An array is joined with
    commas, its [null] and [undefined] elements rendered empty.  A plain
    object renders as [[object Object]] through the inherited [toString],
    unless an own property of that name hides it: no JSON value is
    callable, and the conversion to a primitive then fails. *)
Fixpoint ToString (v : value) : option jsstring :=
  match v with
  | VUndefined => Some (lit "undefined")
  | VNull => Some (lit "null")
  | VBool true => Some (lit "true")
  | VBool false => Some (lit "false")
  | VNum x => Some (JsNumber.toString x)
  | VStr s => Some s
  | VArr elems =>
      (fix join (l : list value) : option jsstring :=
         match l with
         | [] => Some []
         | x :: rest =>
             match (match x with
                    | VUndefined | VNull => Some []
                    | _ => ToString x
                    end) with
             | None => None
             | Some sx =>
                 match rest with
                 | [] => Some sx
                 | _ :: _ =>
                     match join rest with
                     | Some sr => Some (sx ++ lit "," ++ sr)
                     | None => None
                     end
                 end
             end
         end) elems
  | VObj props =>
      match lookup (lit "toString") props with
      | Some _ => None
      | None => Some (lit "[object Object]")
      end
  end.

(** Defining a data property: an existing key keeps its place and takes
    the new value, a new key goes last. *)
Fixpoint define (k : jsstring) (v : value) (props : list (jsstring * value))
  : list (jsstring * value) :=
  match props with
  | [] => [(k, v)]
  | (k', v') :: rest =>
      if JsString.eqb k k' then (k, v) :: rest
      else (k', v') :: define k v rest
  end.

(** Reading the property [k] of a value that is neither [null] nor
    [undefined], for a name [k] that no built-in prototype and no exotic
    object defines (every name the handler reads is such a name): only an
    own property of a plain object can answer. *)
Definition own_prop (v : value) (k : jsstring) : value :=
  match v with
  | VObj props => match lookup k props with
                  | Some x => x
                  | None => VUndefined
                  end
  | _ => VUndefined
  end.

(** Reading the element [[0]]: the first element of an array, the first
    code unit of a string, the property ["0"] of a plain object. *)
Definition first_elem (v : value) : value :=
  match v with
  | VArr (x :: _) => x
  | VStr (c :: _) => VStr [c]
  | VObj props => own_prop v (lit "0")
  | _ => VUndefined
  end.

End JsValue.
Import JsValue.

(** ** JSON.parse *)

Module JSON.

Import JsNumber.

Inductive outcome (A : Type) : Type :=
| Parsed (a : A) (rest : jsstring)
| Malformed
| Exhausted.
Arguments Malformed {A}.
Arguments Exhausted {A}.

Definition is_char (a : ascii) (c : code_unit) : bool :=
  N.eqb c (N_of_ascii a).

Definition QUOTE : code_unit := 34%N.
Definition BACKSLASH : code_unit := 92%N.

(** JSON white space: tab, line feed, carriage return, space. *)
Definition is_ws (c : code_unit) : bool :=
  N.eqb c 9 || N.eqb c 10 || N.eqb c 13 || N.eqb c 32.

Fixpoint skip_ws (s : jsstring) : jsstring :=
  match s with
  | c :: r => if is_ws c then skip_ws r else s
  | [] => []
  end.

Definition is_digit (c : code_unit) : bool := N.leb 48 c && N.leb c 57.

Fixpoint take_digits (s : jsstring) : jsstring * jsstring :=
  match s with
  | c :: r =>
      if is_digit c
      then let '(ds, rest) := take_digits r in (c :: ds, rest)
      else ([], s)
  | [] => ([], [])
  end.

Definition digits_value (ds : jsstring) : N :=
  List.fold_left (fun acc c => (10 * acc + (c - 48))%N) ds 0%N.

Definition hex_value (c : code_unit) : option N :=
  if is_digit c then Some (c - 48)%N
  else if N.leb 65 c && N.leb c 70 then Some (c - 55)%N
  else if N.leb 97 c && N.leb c 102 then Some (c - 87)%N
  else None.

Definition hex4 (a b c d : code_unit) : option code_unit :=
  match hex_value a, hex_value b, hex_value c, hex_value d with
  | Some x, Some y, Some z, Some w =>
      Some (4096 * x + 256 * y + 16 * z + w)%N
  | _, _, _, _ => None
  end.

(** The single-character escapes: quote, backslash, slash, b, f, n, r, t. *)
Definition unescape (c : code_unit) : option code_unit :=
  if N.eqb c QUOTE then Some QUOTE
  else if N.eqb c BACKSLASH then Some BACKSLASH
  else if is_char "/" c then Some 47%N
  else if is_char "b" c then Some 8%N
  else if is_char "f" c then Some 12%N
  else if is_char "n" c then Some 10%N
  else if is_char "r" c then Some 13%N
  else if is_char "t" c then Some 9%N
  else None.

(** The characters of a string literal, read from just after the opening
    quote up to and including the closing one. *)
Fixpoint parse_string (s acc : jsstring) : option (jsstring * jsstring) :=
  match s with
  | [] => None
  | c :: r =>
      if N.eqb c QUOTE then Some (List.rev acc, r)
      else if N.eqb c BACKSLASH then
        match r with
        | [] => None
        | e :: r' =>
            if is_char "u" e then
              match r' with
              | h1 :: h2 :: h3 :: h4 :: r'' =>
                  match hex4 h1 h2 h3 h4 with
                  | Some u => parse_string r'' (u :: acc)
                  | None => None
                  end
              | _ => None
              end
            else
              match unescape e with
              | Some u => parse_string r' (u :: acc)
              | None => None
              end
        end
      else if N.ltb c 32 then None
      else parse_string r (c :: acc)
  end.

(** The integer part of a number: a lone zero, or digits that do not start
    with zero. *)
Definition int_part (s : jsstring) : option (jsstring * jsstring) :=
  match s with
  | c :: r =>
      if is_char "0" c then Some ([c], r)
      else if is_digit c then Some (take_digits s)
      else None
  | [] => None
  end.

(** The optional fraction: a dot and at least one digit. *)
Definition frac_part (s : jsstring) : option (jsstring * jsstring) :=
  match s with
  | c :: r =>
      if is_char "." c then
        let '(fd, rest) := take_digits r in
        if is_empty fd then None else Some (fd, rest)
      else Some ([], s)
  | [] => Some ([], s)
  end.

Definition exp_digits (eneg : bool) (s : jsstring) : option (Z * jsstring) :=
  let '(ed, rest) := take_digits s in
  if is_empty ed then None
  else
    let e := Z.of_N (digits_value ed) in
    Some (if eneg then Z.opp e else e, rest).

(** The optional exponent: [e] or [E], an optional sign, at least one
    digit. *)
Definition exp_part (s : jsstring) : option (Z * jsstring) :=
  match s with
  | c :: r =>
      if is_char "e" c || is_char "E" c then
        match r with
        | c' :: r' =>
            if is_char "+" c' then exp_digits false r'
            else if is_char "-" c' then exp_digits true r'
            else exp_digits false r
        | [] => None
        end
      else Some (0%Z, s)
  | [] => Some (0%Z, s)
  end.

(** A number literal: optional minus, integer part, optional fraction,
    optional exponent. *)
Definition parse_number (s : jsstring) : option (number * jsstring) :=
  let '(neg, s1) := match s with
                    | c :: r => if is_char "-" c then (true, r) else (false, s)
                    | [] => (false, s)
                    end in
  match int_part s1 with
  | None => None
  | Some (ip, s2) =>
      match frac_part s2 with
      | None => None
      | Some (fd, s3) =>
          match exp_part s3 with
          | None => None
          | Some (e, s4) =>
              Some (of_decimal neg (digits_value (ip ++ fd))
                               (e - Z.of_nat (List.length fd)), s4)
          end
      end
  end.

Definition expect (word : jsstring) (v : value) (s : jsstring)
  : outcome value :=
  if starts_with s word
  then Parsed v (skipn (List.length word) s)
  else Malformed.

(** One JSON value, with the white space before it.  [parse_elements]
    reads an array from just after its bracket or a comma, and
    [parse_members] an object likewise. *)
Fixpoint parse_value (fuel : nat) (s : jsstring) : outcome value :=
  match fuel with
  | O => Exhausted
  | S fuel' =>
      match skip_ws s with
      | [] => Malformed
      | c :: r =>
          if N.eqb c QUOTE then
            match parse_string r [] with
            | Some (str, rest) => Parsed (VStr str) rest
            | None => Malformed
            end
          else if is_char "[" c then
            match skip_ws r with
            | c' :: rest =>
                if is_char "]" c' then Parsed (VArr []) rest
                else parse_elements fuel' r []
            | [] => Malformed
            end
          else if is_char "{" c then
            match skip_ws r with
            | c' :: rest =>
                if is_char "}" c' then Parsed (VObj []) rest
                else parse_members fuel' r []
            | [] => Malformed
            end
          else if is_char "n" c then expect (lit "null") VNull (c :: r)
          else if is_char "t" c then expect (lit "true") (VBool true) (c :: r)
          else if is_char "f" c then expect (lit "false") (VBool false) (c :: r)
          else if is_char "-" c || is_digit c then
            match parse_number (c :: r) with
            | Some (x, rest) => Parsed (VNum x) rest
            | None => Malformed
            end
          else Malformed
      end
  end
with parse_elements (fuel : nat) (s : jsstring) (acc : list value)
  : outcome value :=
  match fuel with
  | O => Exhausted
  | S fuel' =>
      match parse_value fuel' s with
      | Parsed v r =>
          match skip_ws r with
          | c :: rest =>
              if is_char "," c then parse_elements fuel' rest (v :: acc)
              else if is_char "]" c then Parsed (VArr (List.rev (v :: acc))) rest
              else Malformed
          | [] => Malformed
          end
      | Malformed => Malformed
      | Exhausted => Exhausted
      end
  end
with parse_members (fuel : nat) (s : jsstring)
       (acc : list (jsstring * value)) : outcome value :=
  match fuel with
  | O => Exhausted
  | S fuel' =>
      match skip_ws s with
      | c :: r =>
          if N.eqb c QUOTE then
            match parse_string r [] with
            | Some (k, r1) =>
                match skip_ws r1 with
                | c1 :: r2 =>
                    if is_char ":" c1 then
                      match parse_value fuel' r2 with
                      | Parsed v r3 =>
                          match skip_ws r3 with
                          | c3 :: rest =>
                              if is_char "," c3
                              then parse_members fuel' rest (define k v acc)
                              else if is_char "}" c3
                              then Parsed (VObj (define k v acc)) rest
                              else Malformed
                          | [] => Malformed
                          end
                      | Malformed => Malformed
                      | Exhausted => Exhausted
                      end
                    else Malformed
                | [] => Malformed
                end
            | None => Malformed
            end
          else Malformed
      | [] => Malformed
      end
  end.

(** Two units of fuel for each code unit, and one more: enough for every
    text, see [parse_never_exhausted]. *)
Definition fuel_for (s : jsstring) : nat := 2 * List.length s + 1.

(** [JSON.parse] on a string: [None] stands for the SyntaxError. *)
Definition parse (text : jsstring) : option value :=
  match parse_value (fuel_for text) text with
  | Parsed v rest => if is_empty (skip_ws rest) then Some v else None
  | Malformed | Exhausted => None
  end.

End JSON.

(** ** Effects: exceptions, the outbound call, the log and the reply *)

Module Effect.

Inductive js_error : Type :=
| TypeError
| SyntaxError
| NetworkError.

(** What [res.status(s).json(b)] sends. *)
Record reply : Type := { status : Z; body : value }.

(** The arguments of the call to [fetch]; [payload] is the object handed
    to [JSON.stringify]. *)
Record fetch_request : Type := {
  url : jsstring;
  method : jsstring;
  headers : list (jsstring * jsstring);
  payload : value
}.

(** What the upstream service answers: a status line and a body, decoded
    to text, whose transfer may fail ([None]). *)
Record response : Type := { resp_status : Z; resp_body : option jsstring }.

Inductive fetch_result : Type :=
| Rejected
| Resolved (r : response).

Inductive log_arg : Type :=
| LogValue (v : value)
| LogError (e : js_error).

(** What one request leaves behind, each list in the order of events. *)
Record world : Type := {
  calls : list fetch_request;
  errors : list (list log_arg);
  replies : list reply
}.

Definition quiet : world := {| calls := []; errors := []; replies := [] |}.

Inductive result (A : Type) : Type :=
| Returned (a : A)
| Threw (e : js_error).
Arguments Threw {A}.

Definition M (A : Type) : Type := world -> result A * world.

Definition ret {A} (a : A) : M A := fun w => (Returned a, w).

Definition bind {A B} (m : M A) (k : A -> M B) : M B :=
  fun w =>
    match m w with
    | (Returned a, w') => k a w'
    | (Threw e, w') => (Threw e, w')
    end.

Definition throw {A} (e : js_error) : M A := fun w => (Threw e, w).

(** [try { m } catch (err) { h err }]: the effects of [m] up to the throw
    stay. *)
Definition try_catch {A} (m : M A) (h : js_error -> M A) : M A :=
  fun w =>
    match m w with
    | (Returned a, w') => (Returned a, w')
    | (Threw e, w') => h e w'
    end.

Definition send (s : Z) (b : value) : M unit :=
  fun w => (Returned tt,
            {| calls := calls w; errors := errors w;
               replies := replies w ++ [{| status := s; body := b |}] |}).

Definition console_error (args : list log_arg) : M unit :=
  fun w => (Returned tt,
            {| calls := calls w; errors := errors w ++ [args];
               replies := replies w |}).

(** [await fetch(...)] against the upstream [net]: the call is recorded,
    then the promise settles. *)
Definition fetch (net : fetch_request -> fetch_result) (rq : fetch_request)
  : M response :=
  fun w =>
    let w' := {| calls := calls w ++ [rq]; errors := errors w;
                 replies := replies w |} in
    match net rq with
    | Resolved r => (Returned r, w')
    | Rejected => (Threw NetworkError, w')
    end.

(** [response.ok]: a status from 200 to 299. *)
Definition ok (r : response) : bool :=
  ((200 <=? resp_status r) && (resp_status r <=? 299))%Z.

(** [await response.text()]. *)
Definition text (r : response) : M jsstring :=
  match resp_body r with
  | Some t => ret t
  | None => throw NetworkError
  end.

(** [await response.json()]: the body text through [JSON.parse]. *)
Definition json (r : response) : M value :=
  bind (text r) (fun t =>
    match JSON.parse t with
    | Some v => ret v
    | None => throw SyntaxError
    end).

(** [JSON.parse(v)]: the argument goes through ToString, then the text
    is parsed. *)
Definition JSON_parse (v : value) : result value :=
  match ToString v with
  | None => Threw TypeError
  | Some t =>
      match JSON.parse t with
      | Some x => Returned x
      | None => Threw SyntaxError
      end
  end.

(** A computation without effects. *)
Definition lift {A} (r : result A) : M A := fun w => (r, w).

Definition or_throw {A} (e : js_error) (o : option A) : M A :=
  match o with
  | Some a => ret a
  | None => throw e
  end.

(** [try { x = m } catch (err) { h err; return }] followed by [k x]. *)
Definition try_or_return {A} (m : M A) (h : js_error -> M unit)
           (k : A -> M unit) : M unit :=
  fun w =>
    match m w with
    | (Returned a, w') => k a w'
    | (Threw e, w') => h e w'
    end.

(** [v.k]: a TypeError on [null] and [undefined]. *)
Definition get (v : value) (k : jsstring) : M value :=
  if nullish v then throw TypeError else ret (own_prop v k).

(** [v?.k]. *)
Definition get_opt (v : value) (k : jsstring) : value :=
  if nullish v then VUndefined else own_prop v k.

(** [v?.[0]]. *)
Definition first_opt (v : value) : value :=
  if nullish v then VUndefined else first_elem v.

End Effect.
Import Effect.

Declare Scope js_scope.
Delimit Scope js_scope with js.
Notation "x <- m ;; k" := (bind m (fun x => k))
  (at level 100, m at next level, right associativity) : js_scope.
Notation "m ;;; k" := (bind m (fun _ => k))
  (at level 100, right associativity) : js_scope.
Open Scope js_scope.

(** ** The server *)

Module Server.

(** *** buildPrompt *)

(** The object [buildPrompt] destructures. *)
Record WorkoutPlanRequest : Type := {
  goal : value;
  experience : value;
  style : value;
  daysPerWeek : value
}.

Definition line (s : string) : jsstring := lit s ++ LF.

(** A line of the JSON shape: indentation, a quoted name, the rest. *)
Definition member (indent name rest : string) : jsstring :=
  lit indent ++ quoted name ++ lit rest ++ LF.

(** The template up to [${goal}]. *)
Definition prompt_head : jsstring :=
  LF
  ++ line "    You are a professional strength & conditioning coach creating a safe, realistic workout plan."
  ++ line ""
  ++ line "    User profile:"
  ++ lit "    - Goal: ".

Definition before_experience : jsstring :=
  LF ++ lit "    - Experience level: ".

Definition before_style : jsstring :=
  LF ++ lit "    - Preferred workout style: ".

Definition before_days : jsstring :=
  LF ++ lit "    - Days per week: ".

(** From the duration line to the second [${daysPerWeek}]. *)
Definition requirements_head : jsstring :=
  LF
  ++ lit "    - Duration: 6" ++ EN_DASH ++ line "8 weeks total"
  ++ line ""
  ++ line "    Requirements:"
  ++ line "    1. Create a structured training plan that lasts 6 weeks by default (you may go up to 8 if it makes sense)."
  ++ lit "    2. Use the specified number of training days per week (".

Definition requirements_tail : jsstring :=
  line ") and fill each day with an appropriate workout."
  ++ line "    3. Match intensity and complexity to the user's experience level."
  ++ line "    4. Respect the style (e.g., Weightlifting, Pilates, HIIT, Cardio, Outdoor, Home Workouts)."
  ++ line "    5. Include rest or active recovery days where appropriate."
  ++ line "    6. Avoid unsafe volume or crazy supersets. Assume normal healthy adult with no injuries."
  ++ line "".

(** The sentence that asks for JSON and nothing else. *)
Definition json_only : jsstring :=
  lit "Return ONLY valid JSON with this exact shape (no extra text):".

(** The shape the answer is to have. *)
Definition json_shape : jsstring :=
  line "    {"
  ++ member "    " "weekCount" ": number,"
  ++ member "    " "daysPerWeek" ": number,"
  ++ member "    " "summary" ": {"
  ++ member "        " "title" ": string,"
  ++ member "        " "description" ": string,"
  ++ member "        " "notes" ": string"
  ++ line "    },"
  ++ member "    " "weeks" ": ["
  ++ line "        {"
  ++ member "        " "weekNumber" ": number,"
  ++ member "        " "focus" ": string,"
  ++ member "        " "days" ": ["
  ++ line "            {"
  ++ member "            " "id" ": string,"
  ++ member "            " "dayName" ": string,"
  ++ member "            " "title" ": string,"
  ++ member "            " "focus" ": string,"
  ++ member "            " "durationMinutes" ": number,"
  ++ member "            " "exerciseCount" ": number,"
  ++ member "            " "style" ": string,"
  ++ member "            " "experience" ": string,"
  ++ member "            " "exercises" ": ["
  ++ line "                {"
  ++ member "                " "name" ": string,"
  ++ member "                " "sets" ": number,"
  ++ member "                " "reps" ": string,"
  ++ member "                " "equipment" ": string,"
  ++ member "                " "notes" ": string"
  ++ line "                }"
  ++ line "            ]"
  ++ line "            }"
  ++ line "        ]"
  ++ line "        }"
  ++ line "    ]"
  ++ line "    }".

(** From [Return ONLY ...] to the closing backquote. *)
Definition prompt_tail : jsstring :=
  lit "    " ++ json_only ++ LF
  ++ line ""
  ++ json_shape
  ++ lit "    ".

(** The template with its five holes filled. *)
Definition template (goal experience style daysPerWeek : jsstring) : jsstring :=
  prompt_head ++ goal
  ++ before_experience ++ experience
  ++ before_style ++ style
  ++ before_days ++ daysPerWeek
  ++ requirements_head ++ daysPerWeek
  ++ requirements_tail ++ prompt_tail.

(** The template literal: each [${...}] is the [ToString] of the value,
    and a value that has none makes the whole literal throw. *)
Definition buildPrompt (p : WorkoutPlanRequest) : option jsstring :=
  match ToString (goal p), ToString (experience p),
        ToString (style p), ToString (daysPerWeek p) with
  | Some g, Some e, Some s, Some d => Some (template g e s d)
  | _, _, _, _ => None
  end.

(** *** The route POST /api/generate-workout-plan *)

Definition error_body (message : string) : value :=
  VObj [(lit "error", VStr (lit message))].

Definition MISSING_FIELDS : value :=
  error_body "Missing required fields. Expect goal, experience, style, daysPerWeek.".
Definition KEY_NOT_CONFIGURED : value :=
  error_body "OPENAI_API_KEY is not configured on the server.".
Definition UPSTREAM_FAILED (details : jsstring) : value :=
  VObj [(lit "error", VStr (lit "Failed to generate workout plan from AI."));
        (lit "details", VStr details)].
Definition NOT_VALID_JSON : value :=
  error_body "AI response was not valid JSON.".
Definition MISSING_WEEKS : value :=
  error_body "Workout plan missing 'weeks' array in AI response.".
Definition UNEXPECTED : value :=
  error_body "Unexpected server error.".
Definition SUCCESS (plan : value) : value :=
  VObj [(lit "ok", VBool true); (lit "plan", plan)].

(** [process.env.OPENAI_API_KEY]: a string, or [undefined]. *)
Definition env_value (k : option jsstring) : value :=
  match k with
  | Some s => VStr s
  | None => VUndefined
  end.

(** The request sent upstream for a prompt. *)
Definition completion_request (key : option jsstring) (prompt : jsstring)
  : fetch_request :=
  {| url := lit "https://api.openai.com/v1/chat/completions";
     method := lit "POST";
     headers :=
       [(lit "Content-Type", lit "application/json");
        (lit "Authorization",
         lit "Bearer " ++ match key with
                          | Some k => k
                          | None => lit "undefined"
                          end)];
     payload :=
       VObj [(lit "model", VStr (lit "gpt-4.1-mini"));
             (lit "messages",
              VArr [VObj [(lit "role", VStr (lit "system"));
                          (lit "content",
                           VStr (lit "You are a helpful fitness coach that responds ONLY with valid JSON."))];
                    VObj [(lit "role", VStr (lit "user"));
                          (lit "content", VStr prompt)]]);
             (lit "temperature", VNum (JsNumber.of_decimal false 8 (-1)))] |}.

(** [data.choices?.[0]?.message?.content]. *)
Definition first_content (data : value) : M value :=
  choices <- get data (lit "choices") ;;
  ret (get_opt (get_opt (first_opt choices) (lit "message")) (lit "content")).

(** *** Configuration and the route GET / *)

(** [process.env.PORT || 5001]. *)
Definition PORT (env_port : option jsstring) : value :=
  or_else (env_value env_port) (VNum (JsNumber.of_Z 5001)).

Definition health : M unit :=
  send 200 (VObj [(lit "status", VStr (lit "ok"));
                  (lit "service", VStr (lit "flexyn-workout-backend"))]).

(** *** The handler *)

Section Handler.

(** The credential read at start-up and the upstream service. *)
Variable OPENAI_API_KEY : option jsstring.
Variable net : fetch_request -> fetch_result.

(** The body of the [try]. *)
Definition attempt (req_body : value) : M unit :=
  let source := or_else req_body (VObj []) in
  goal <- get source (lit "goal") ;;
  experience <- get source (lit "experience") ;;
  style <- get source (lit "style") ;;
  daysPerWeek <- get source (lit "daysPerWeek") ;;
  if negb (truthy goal) || negb (truthy experience)
     || negb (truthy style) || negb (truthy daysPerWeek)
  then send 400 MISSING_FIELDS
  else if negb (truthy (env_value OPENAI_API_KEY))
  then send 500 KEY_NOT_CONFIGURED
  else
    prompt <- or_throw TypeError
                (buildPrompt {| goal := goal; experience := experience;
                                style := style; daysPerWeek := daysPerWeek |}) ;;
    openAiResponse <- fetch net (completion_request OPENAI_API_KEY prompt) ;;
    if negb (ok openAiResponse) then
      text <- text openAiResponse ;;
      console_error [LogValue (VStr (lit "OpenAI error:"));
                     LogValue (VStr text)] ;;;
      send 502 (UPSTREAM_FAILED text)
    else
      data <- json openAiResponse ;;
      found <- first_content data ;;
      let content := or_else found (VStr (lit "{}")) in
      try_or_return (lift (JSON_parse content))
        (fun err =>
           console_error [LogValue (VStr (lit "JSON parse error from OpenAI:"));
                          LogError err; LogValue content] ;;;
           send 500 NOT_VALID_JSON)
        (fun plan =>
           weeks <- get plan (lit "weeks") ;;
           if negb (is_array weeks) then send 500 MISSING_WEEKS
           else send 200 (SUCCESS plan)).

(** The [catch] at the request boundary. *)
Definition rescue (err : js_error) : M unit :=
  console_error [LogValue (VStr (lit "Server error in /api/generate-workout-plan:"));
                 LogError err] ;;;
  send 500 UNEXPECTED.

Definition handler (req_body : value) : M unit :=
  try_catch (attempt req_body) rescue.

End Handler.

End Server.

(** * Vocabulary of the properties *)

Unset Implicit Arguments.

Import Server.

(** ** What a request body offers *)

Definition required_fields : list jsstring :=
  [lit "goal"; lit "experience"; lit "style"; lit "daysPerWeek"].

(** Every required field is present in the body and truthy. *)
Definition has_all_fields (req_body : value) : bool :=
  forallb (fun k => JsValue.truthy (own_prop req_body k)) required_fields.

(** The four fields as the handler destructures them. *)
Definition profile_of (req_body : value) : WorkoutPlanRequest :=
  {| goal := own_prop req_body (lit "goal");
     experience := own_prop req_body (lit "experience");
     style := own_prop req_body (lit "style");
     daysPerWeek := own_prop req_body (lit "daysPerWeek") |}.

(** The credential is configured: a non-empty string. *)
Definition configured (key : option jsstring) : bool :=
  JsValue.truthy (env_value key).

(** The one request a valid body leads to, when its four fields have a
    string rendering. *)
Definition upstream_request (key : option jsstring) (req_body : value)
  : option fetch_request :=
  option_map (completion_request key) (buildPrompt (profile_of req_body)).

(** The world after a handler that called nothing, logged nothing and sent
    one reply. *)
Definition only_reply (s : Z) (b : value) : world :=
  {| calls := []; errors := []; replies := [{| status := s; body := b |}] |}.

(** ** What an upstream answer leads to *)

(** The first completion's message content of an answer that is neither
    [null] nor [undefined]. *)
Definition content_of (data : value) : value :=
  get_opt (get_opt (first_opt (own_prop data (lit "choices"))) (lit "message"))
          (lit "content").

(** The value handed to [JSON.parse] for a given content. *)
Definition parsed_content (found : value) : value :=
  or_else found (VStr (lit "{}")).

(** The world after the one outbound call. *)
Definition called (rq : fetch_request) : world :=
  {| calls := [rq]; errors := []; replies := [] |}.

(** The world after the call, one log line and one reply. *)
Definition called_logged_replied (rq : fetch_request) (l : list log_arg)
           (s : Z) (b : value) : world :=
  {| calls := [rq]; errors := [l]; replies := [{| status := s; body := b |}] |}.

Definition called_replied (rq : fetch_request) (s : Z) (b : value) : world :=
  {| calls := [rq]; errors := []; replies := [{| status := s; body := b |}] |}.

(** What the [try] body comes to after an upstream answer [r]. *)
Definition after_answer (rq : fetch_request) (r : response)
  : result unit * world :=
  match resp_body r with
  | None => (Threw NetworkError, called rq)
  | Some t =>
      if negb (ok r) then
        (Returned tt,
         called_logged_replied rq
           [LogValue (VStr (lit "OpenAI error:")); LogValue (VStr t)]
           502 (UPSTREAM_FAILED t))
      else
        match JSON.parse t with
        | None => (Threw SyntaxError, called rq)
        | Some data =>
            if nullish data then (Threw TypeError, called rq)
            else
              match JSON_parse (parsed_content (content_of data)) with
              | Threw err =>
                  (Returned tt,
                   called_logged_replied rq
                     [LogValue (VStr (lit "JSON parse error from OpenAI:"));
                      LogError err;
                      LogValue (parsed_content (content_of data))]
                     500 NOT_VALID_JSON)
              | Returned plan =>
                  if nullish plan then (Threw TypeError, called rq)
                  else if is_array (own_prop plan (lit "weeks"))
                  then (Returned tt, called_replied rq 200 (SUCCESS plan))
                  else (Returned tt, called_replied rq 500 MISSING_WEEKS)
              end
        end
  end.

(** ** Sample requests and upstream answers *)

Module Sample.

(** A backslash. *)
Definition ESCAPE : jsstring := [92%N].

(** [{ goal: "fat-loss", experience: "beginner", style: "HIIT",
      daysPerWeek: 3 }]. *)
Definition hiit_request : value :=
  VObj [(lit "goal", VStr (lit "fat-loss"));
        (lit "experience", VStr (lit "beginner"));
        (lit "style", VStr (lit "HIIT"));
        (lit "daysPerWeek", VNum (JsNumber.of_Z 3))].

(** The same without a style, and with zero days. *)
Definition no_style_request : value :=
  VObj [(lit "goal", VStr (lit "fat-loss"));
        (lit "experience", VStr (lit "beginner"));
        (lit "daysPerWeek", VNum (JsNumber.of_Z 3))].

Definition zero_days_request : value :=
  VObj [(lit "goal", VStr (lit "fat-loss"));
        (lit "experience", VStr (lit "beginner"));
        (lit "style", VStr (lit "HIIT"));
        (lit "daysPerWeek", VNum (JsNumber.of_Z 0))].

(** A goal that is an object with an own [toString] property. *)
Definition opaque_goal_request : value :=
  VObj [(lit "goal", VObj [(lit "toString", VNull)]);
        (lit "experience", VStr (lit "beginner"));
        (lit "style", VStr (lit "HIIT"));
        (lit "daysPerWeek", VNum (JsNumber.of_Z 3))].

(** The prompt of [hiit_request]. *)
Definition hiit_prompt : jsstring :=
  template (lit "fat-loss") (lit "beginner") (lit "HIIT") (lit "3").

Definition test_key : option jsstring := Some (lit "sk-test").

(** An upstream that answers every call with one status and body. *)
Definition answering (s : Z) (t : jsstring) : fetch_request -> fetch_result :=
  fun _ => Resolved {| resp_status := s; resp_body := Some t |}.

Definition unreachable : fetch_request -> fetch_result := fun _ => Rejected.

(** The body of a completion whose first message content is the JSON
    text [c]: an object with one choice. *)
Definition completion (c : jsstring) : jsstring :=
  lit "{" ++ quoted "choices" ++ lit ":[{" ++ quoted "message" ++ lit ":{"
  ++ quoted "role" ++ lit ":" ++ quoted "assistant" ++ lit ","
  ++ quoted "content" ++ lit ":" ++ c ++ lit "}}]}".

(** A name between escaped quotes, for text inside a JSON string. *)
Definition escaped (s : string) : jsstring :=
  ESCAPE ++ DQUOTE ++ lit s ++ ESCAPE ++ DQUOTE.

(** The content, as a JSON string, of a plan of three weeks. *)
Definition three_weeks_content : jsstring :=
  DQUOTE ++ lit "{" ++ escaped "weekCount" ++ lit ":3,"
  ++ escaped "weeks" ++ lit ":[{" ++ escaped "weekNumber" ++ lit ":1},{"
  ++ escaped "weekNumber" ++ lit ":2},{" ++ escaped "weekNumber"
  ++ lit ":3}]}" ++ DQUOTE.

Definition three_weeks_plan : value :=
  VObj [(lit "weekCount", VNum (JsNumber.of_Z 3));
        (lit "weeks",
         VArr [VObj [(lit "weekNumber", VNum (JsNumber.of_Z 1))];
               VObj [(lit "weekNumber", VNum (JsNumber.of_Z 2))];
               VObj [(lit "weekNumber", VNum (JsNumber.of_Z 3))]])].

End Sample.
Import Sample.

(** ** More sample requests and answers *)

Module MoreSamples.

(** The content, as a JSON string, of a plan with no week at all. *)
Definition empty_weeks_content : jsstring :=
  DQUOTE ++ lit "{" ++ escaped "weeks" ++ lit ":[]}" ++ DQUOTE.

(** The sample request with one more, unknown, property. *)
Definition hiit_request_with_note : value :=
  VObj [(lit "note", VStr (lit "knee injury"));
        (lit "goal", VStr (lit "fat-loss"));
        (lit "experience", VStr (lit "beginner"));
        (lit "style", VStr (lit "HIIT"));
        (lit "daysPerWeek", VNum (JsNumber.of_Z 3))].

(** Another complete request. *)
Definition strength_request : value :=
  VObj [(lit "goal", VStr (lit "strength"));
        (lit "experience", VStr (lit "advanced"));
        (lit "style", VStr (lit "Weightlifting"));
        (lit "daysPerWeek", VNum (JsNumber.of_Z 5))].

Definition strength_prompt : jsstring :=
  template (lit "strength") (lit "advanced") (lit "Weightlifting") (lit "5").

End MoreSamples.
Import MoreSamples.

(** ** Start-up *)

Module Startup.

(** What the top level of [server.js] does once: the warning it may print
    and the port it listens on, with the line logged once listening. *)
Record boot : Type := {
  warned : list jsstring;
  listening : value;
  announced : option jsstring
}.

Definition KEY_WARNING : jsstring :=
  lit "the /api/generate-workout-plan route will fail.".

Definition startup (env_port env_key : option jsstring) : boot :=
  let port := PORT env_port in
  {| warned := if negb (JsValue.truthy (env_value env_key))
               then [KEY_WARNING] else [];
     listening := port;
     announced := option_map
                    (fun p => lit "Flexyn backend running on http://localhost:" ++ p)
                    (ToString port) |}.

End Startup.
Import Startup.

(** ** Requests one after another *)

(** The world [w] reached from [w0]: every list of [w0] with that of [w]
    after it. *)
Definition after (w0 w : world) : world :=
  {| calls := calls w0 ++ calls w;
     errors := errors w0 ++ errors w;
     replies := replies w0 ++ replies w |}.

(** A computation that reads nothing of the world it starts in: from any
    world it does what it does from [quiet], appended. *)
Definition framed {A : Type} (m : M A) : Prop :=
  forall w0 : world, m w0 = (fst (m quiet), after w0 (snd (m quiet))).

(** ** Every way a request can end *)

Definition unexpected_log (e : js_error) : list log_arg :=
  [LogValue (VStr (lit "Server error in /api/generate-workout-plan:"));
   LogError e].

Inductive served (key : option jsstring) (net : fetch_request -> fetch_result)
          (b : value) : world -> Prop :=
| served_missing :
    has_all_fields b = false ->
    served key net b (only_reply 400 MISSING_FIELDS)
| served_unconfigured :
    has_all_fields b = true -> configured key = false ->
    served key net b (only_reply 500 KEY_NOT_CONFIGURED)
| served_unrenderable :
    has_all_fields b = true -> configured key = true ->
    upstream_request key b = None ->
    served key net b
           {| calls := []; errors := [unexpected_log TypeError];
              replies := [{| status := 500; body := UNEXPECTED |}] |}
| served_rejected (rq : fetch_request) :
    has_all_fields b = true -> configured key = true ->
    upstream_request key b = Some rq -> net rq = Rejected ->
    served key net b
           (called_logged_replied rq (unexpected_log NetworkError)
                                  500 UNEXPECTED)
| served_unreadable (rq : fetch_request) (r : response) :
    has_all_fields b = true -> configured key = true ->
    upstream_request key b = Some rq -> net rq = Resolved r ->
    resp_body r = None ->
    served key net b
           (called_logged_replied rq (unexpected_log NetworkError)
                                  500 UNEXPECTED)
| served_failed (rq : fetch_request) (r : response) (t : jsstring) :
    has_all_fields b = true -> configured key = true ->
    upstream_request key b = Some rq -> net rq = Resolved r ->
    resp_body r = Some t -> ok r = false ->
    served key net b
           (called_logged_replied rq
              [LogValue (VStr (lit "OpenAI error:")); LogValue (VStr t)]
              502 (UPSTREAM_FAILED t))
| served_not_json (rq : fetch_request) (r : response) (t : jsstring) :
    has_all_fields b = true -> configured key = true ->
    upstream_request key b = Some rq -> net rq = Resolved r ->
    resp_body r = Some t -> ok r = true -> JSON.parse t = None ->
    served key net b
           (called_logged_replied rq (unexpected_log SyntaxError)
                                  500 UNEXPECTED)
| served_null_answer (rq : fetch_request) (r : response) (t : jsstring)
                     (data : value) :
    has_all_fields b = true -> configured key = true ->
    upstream_request key b = Some rq -> net rq = Resolved r ->
    resp_body r = Some t -> ok r = true -> JSON.parse t = Some data ->
    nullish data = true ->
    served key net b
           (called_logged_replied rq (unexpected_log TypeError)
                                  500 UNEXPECTED)
| served_bad_content (rq : fetch_request) (r : response) (t : jsstring)
                     (data : value) (err : js_error) :
    has_all_fields b = true -> configured key = true ->
    upstream_request key b = Some rq -> net rq = Resolved r ->
    resp_body r = Some t -> ok r = true -> JSON.parse t = Some data ->
    nullish data = false ->
    JSON_parse (parsed_content (content_of data)) = Threw err ->
    served key net b
           (called_logged_replied rq
              [LogValue (VStr (lit "JSON parse error from OpenAI:"));
               LogError err; LogValue (parsed_content (content_of data))]
              500 NOT_VALID_JSON)
| served_null_plan (rq : fetch_request) (r : response) (t : jsstring)
                   (data plan : value) :
    has_all_fields b = true -> configured key = true ->
    upstream_request key b = Some rq -> net rq = Resolved r ->
    resp_body r = Some t -> ok r = true -> JSON.parse t = Some data ->
    nullish data = false ->
    JSON_parse (parsed_content (content_of data)) = Returned plan ->
    nullish plan = true ->
    served key net b
           (called_logged_replied rq (unexpected_log TypeError)
                                  500 UNEXPECTED)
| served_no_weeks (rq : fetch_request) (r : response) (t : jsstring)
                  (data plan : value) :
    has_all_fields b = true -> configured key = true ->
    upstream_request key b = Some rq -> net rq = Resolved r ->
    resp_body r = Some t -> ok r = true -> JSON.parse t = Some data ->
    nullish data = false ->
    JSON_parse (parsed_content (content_of data)) = Returned plan ->
    nullish plan = false ->
    is_array (own_prop plan (lit "weeks")) = false ->
    served key net b (called_replied rq 500 MISSING_WEEKS)
| served_success (rq : fetch_request) (r : response) (t : jsstring)
                 (data plan : value) :
    has_all_fields b = true -> configured key = true ->
    upstream_request key b = Some rq -> net rq = Resolved r ->
    resp_body r = Some t -> ok r = true -> JSON.parse t = Some data ->
    nullish data = false ->
    JSON_parse (parsed_content (content_of data)) = Returned plan ->
    nullish plan = false ->
    is_array (own_prop plan (lit "weeks")) = true ->
    served key net b (called_replied rq 200 (SUCCESS plan)).

(** * Properties *)

(** ** Strings *)

Lemma starts_with_prefix (s t : jsstring) :
  starts_with s t = true -> exists post, s = t ++ post.
Proof.
  revert s. induction t as [ | y t IH]; intros s H.
  - exists s. reflexivity.
  - destruct s as [ | x s]; [discriminate | ].
    simpl in H. apply andb_true_iff in H as [Hx Hs].
    apply N.eqb_eq in Hx. subst y.
    destruct (IH s Hs) as [post ->]. exists post. reflexivity.
Qed.

(** The search is sound for [contains]. *)
Lemma includes_contains (s t : jsstring) :
  includes s t = true -> contains s t.
Proof.
  induction s as [ | x s IH]; intros H.
  - simpl in H. rewrite orb_false_r in H.
    destruct (starts_with_prefix [] t H) as [post Hp].
    exists [], post. exact Hp.
  - simpl in H. apply orb_true_iff in H as [H | H].
    + destruct (starts_with_prefix (x :: s) t H) as [post Hp].
      exists [], post. exact Hp.
    + destruct (IH H) as [pre [post ->]].
      exists (x :: pre), post. reflexivity.
Qed.

Lemma contains_here (pre t post : jsstring) : contains (pre ++ t ++ post) t.
Proof. exists pre, post. reflexivity. Qed.

Lemma contains_later (pre s t : jsstring) :
  contains s t -> contains (pre ++ s) t.
Proof.
  intros [a [b ->]]. exists (pre ++ a), b. rewrite <- app_assoc. reflexivity.
Qed.

(** ** The parser never runs out of fuel *)

Module JsonFacts.

Import JSON.

Lemma skip_ws_length (s : jsstring) :
  List.length (skip_ws s) <= List.length s.
Proof.
  induction s as [ | c s IH]; simpl; [lia | ].
  destruct (is_ws c); simpl; lia.
Qed.

Lemma skip_ws_cons (s : jsstring) (c : code_unit) (r : jsstring) :
  skip_ws s = c :: r -> List.length r < List.length s.
Proof.
  intros H. pose proof (skip_ws_length s) as Hl. rewrite H in Hl.
  simpl in Hl. lia.
Qed.

Lemma take_digits_split (s ds r : jsstring) :
  take_digits s = (ds, r) -> s = ds ++ r.
Proof.
  revert ds r. induction s as [ | c s IH]; intros ds r H; simpl in H.
  - inversion H. reflexivity.
  - destruct (is_digit c).
    + destruct (take_digits s) as [ds' r'] eqn:E. inversion H. subst.
      simpl. f_equal. apply IH. reflexivity.
    + inversion H. reflexivity.
Qed.

Lemma take_digits_length (s ds r : jsstring) :
  take_digits s = (ds, r) -> List.length s = List.length ds + List.length r.
Proof.
  intros H. rewrite (take_digits_split s ds r H), length_app. reflexivity.
Qed.

Lemma parse_string_length (n : nat) :
  forall (s acc k r : jsstring),
    List.length s <= n ->
    parse_string s acc = Some (k, r) -> List.length r < List.length s.
Proof.
  induction n as [ | n IH]; intros s acc k r Hn H.
  - destruct s; [discriminate | simpl in Hn; lia].
  - destruct s as [ | c s]; [discriminate | ].
    simpl in Hn. simpl in H.
    destruct (N.eqb c QUOTE).
    { inversion H. subst. simpl. lia. }
    destruct (N.eqb c BACKSLASH).
    { destruct s as [ | e s]; [discriminate | ].
      simpl in Hn.
      destruct (is_char "u" e).
      - destruct s as [ | h1 [ | h2 [ | h3 [ | h4 s]]]]; try discriminate.
        destruct (hex4 h1 h2 h3 h4); [ | discriminate].
        simpl in Hn. apply IH in H; [simpl; lia | lia].
      - destruct (unescape e); [ | discriminate].
        apply IH in H; [simpl; lia | lia]. }
    destruct (N.ltb c 32); [discriminate | ].
    apply IH in H; [simpl; lia | lia].
Qed.

Lemma int_part_length (s ip r : jsstring) :
  int_part s = Some (ip, r) -> List.length r < List.length s.
Proof.
  unfold int_part. destruct s as [ | c s]; [discriminate | ].
  destruct (is_char "0" c).
  - intros H. inversion H. simpl. lia.
  - destruct (is_digit c) eqn:Hd; [ | discriminate].
    intros H. inversion H as [E]. simpl in E. rewrite Hd in E.
    destruct (take_digits s) as [ds' r'] eqn:Es. inversion E. subst.
    apply take_digits_length in Es. simpl. lia.
Qed.

Lemma frac_part_length (s fd r : jsstring) :
  frac_part s = Some (fd, r) -> List.length r <= List.length s.
Proof.
  unfold frac_part. destruct s as [ | c s]; [intros H; inversion H; lia | ].
  destruct (is_char "." c).
  - destruct (take_digits s) as [ds r'] eqn:E.
    destruct (is_empty ds); [discriminate | ].
    intros H. inversion H. subst.
    apply take_digits_length in E. simpl. lia.
  - intros H. inversion H. lia.
Qed.

Lemma exp_digits_length (b : bool) (s : jsstring) (e : Z) (r : jsstring) :
  exp_digits b s = Some (e, r) -> List.length r <= List.length s.
Proof.
  unfold exp_digits. destruct (take_digits s) as [ds r'] eqn:E.
  destruct (is_empty ds); [discriminate | ].
  intros H. inversion H. subst. apply take_digits_length in E. lia.
Qed.

Lemma exp_part_length (s : jsstring) (e : Z) (r : jsstring) :
  exp_part s = Some (e, r) -> List.length r <= List.length s.
Proof.
  unfold exp_part. destruct s as [ | c s]; [intros H; inversion H; lia | ].
  destruct (is_char "e" c || is_char "E" c).
  - destruct s as [ | c' s]; [discriminate | ].
    destruct (is_char "+" c'); [ | destruct (is_char "-" c')];
      intros H; apply exp_digits_length in H; simpl in *; lia.
  - intros H. inversion H. lia.
Qed.

Lemma parse_number_length (s : jsstring) (x : JsNumber.number) (r : jsstring) :
  parse_number s = Some (x, r) -> List.length r < List.length s.
Proof.
  unfold parse_number.
  set (start := match s with
                | c :: r0 => if is_char "-" c then (true, r0) else (false, s)
                | [] => (false, s)
                end).
  assert (Hs : List.length (snd start) <= List.length s).
  { subst start. destruct s as [ | c r0]; simpl; [lia | ].
    destruct (is_char "-" c); simpl; lia. }
  destruct start as [neg s1]. simpl in Hs.
  destruct (int_part s1) as [[ip s2] | ] eqn:Hi; [ | discriminate].
  destruct (frac_part s2) as [[fd s3] | ] eqn:Hfr; [ | discriminate].
  destruct (exp_part s3) as [[e s4] | ] eqn:He; [ | discriminate].
  intros H. inversion H. subst.
  apply int_part_length in Hi. apply frac_part_length in Hfr.
  apply exp_part_length in He. lia.
Qed.

Lemma expect_length (word : jsstring) (v v' : value) (s r : jsstring) :
  0 < List.length word ->
  expect word v s = Parsed v' r -> List.length r < List.length s.
Proof.
  unfold expect. intros Hw.
  destruct (starts_with s word) eqn:E; [ | discriminate].
  intros H. inversion H. subst.
  destruct (starts_with_prefix s word E) as [post ->].
  rewrite skipn_app, skipn_all, Nat.sub_diag. simpl.
  rewrite length_app. lia.
Qed.

(** One unfolding of each of the three parsers. *)
Lemma parse_value_step (fuel : nat) (s : jsstring) :
  parse_value (S fuel) s =
  match skip_ws s with
  | [] => Malformed
  | c :: r =>
      if N.eqb c QUOTE then
        match parse_string r [] with
        | Some (str, rest) => Parsed (VStr str) rest
        | None => Malformed
        end
      else if is_char "[" c then
        match skip_ws r with
        | c' :: rest =>
            if is_char "]" c' then Parsed (VArr []) rest
            else parse_elements fuel r []
        | [] => Malformed
        end
      else if is_char "{" c then
        match skip_ws r with
        | c' :: rest =>
            if is_char "}" c' then Parsed (VObj []) rest
            else parse_members fuel r []
        | [] => Malformed
        end
      else if is_char "n" c then expect (lit "null") VNull (c :: r)
      else if is_char "t" c then expect (lit "true") (VBool true) (c :: r)
      else if is_char "f" c then expect (lit "false") (VBool false) (c :: r)
      else if is_char "-" c || is_digit c then
        match parse_number (c :: r) with
        | Some (x, rest) => Parsed (VNum x) rest
        | None => Malformed
        end
      else Malformed
  end.
Proof. reflexivity. Qed.

Lemma parse_elements_step (fuel : nat) (s : jsstring) (acc : list value) :
  parse_elements (S fuel) s acc =
  match parse_value fuel s with
  | Parsed v r =>
      match skip_ws r with
      | c :: rest =>
          if is_char "," c then parse_elements fuel rest (v :: acc)
          else if is_char "]" c then Parsed (VArr (List.rev (v :: acc))) rest
          else Malformed
      | [] => Malformed
      end
  | Malformed => Malformed
  | Exhausted => Exhausted
  end.
Proof. reflexivity. Qed.

Lemma parse_members_step (fuel : nat) (s : jsstring)
      (acc : list (jsstring * value)) :
  parse_members (S fuel) s acc =
  match skip_ws s with
  | c :: r =>
      if N.eqb c QUOTE then
        match parse_string r [] with
        | Some (k, r1) =>
            match skip_ws r1 with
            | c1 :: r2 =>
                if is_char ":" c1 then
                  match parse_value fuel r2 with
                  | Parsed v r3 =>
                      match skip_ws r3 with
                      | c3 :: rest =>
                          if is_char "," c3
                          then parse_members fuel rest (define k v acc)
                          else if is_char "}" c3
                          then Parsed (VObj (define k v acc)) rest
                          else Malformed
                      | [] => Malformed
                      end
                  | Malformed => Malformed
                  | Exhausted => Exhausted
                  end
                else Malformed
            | [] => Malformed
            end
        | None => Malformed
        end
      else Malformed
  | [] => Malformed
  end.
Proof. reflexivity. Qed.

(** Every parser consumes at least one code unit. *)
Lemma parse_consumes (fuel : nat) :
  (forall s v r, parse_value fuel s = Parsed v r ->
                 List.length r < List.length s)
  /\ (forall s acc v r, parse_elements fuel s acc = Parsed v r ->
                        List.length r < List.length s)
  /\ (forall s acc v r, parse_members fuel s acc = Parsed v r ->
                        List.length r < List.length s).
Proof.
  induction fuel as [ | fuel [IHv [IHe IHm]]].
  - repeat split; intros; discriminate.
  - repeat split.
    + intros s v r. rewrite parse_value_step.
      destruct (skip_ws s) as [ | c r0] eqn:Hs; [discriminate | ].
      apply skip_ws_cons in Hs.
      destruct (N.eqb c QUOTE).
      { destruct (parse_string r0 []) as [[str rest] | ] eqn:Hp;
          [ | discriminate].
        intros H. inversion H. subst.
        apply (parse_string_length (List.length r0)) in Hp; lia. }
      destruct (is_char "[" c).
      { destruct (skip_ws r0) as [ | c' rest] eqn:Hr; [discriminate | ].
        apply skip_ws_cons in Hr.
        destruct (is_char "]" c').
        - intros H. inversion H. subst. lia.
        - intros H. apply IHe in H. lia. }
      destruct (is_char "{" c).
      { destruct (skip_ws r0) as [ | c' rest] eqn:Hr; [discriminate | ].
        apply skip_ws_cons in Hr.
        destruct (is_char "}" c').
        - intros H. inversion H. subst. lia.
        - intros H. apply IHm in H. lia. }
      destruct (is_char "n" c).
      { intros H. apply expect_length in H; simpl in *; lia. }
      destruct (is_char "t" c).
      { intros H. apply expect_length in H; simpl in *; lia. }
      destruct (is_char "f" c).
      { intros H. apply expect_length in H; simpl in *; lia. }
      destruct (is_char "-" c || is_digit c); [ | discriminate].
      destruct (parse_number (c :: r0)) as [[x rest] | ] eqn:Hp;
        [ | discriminate].
      intros H. inversion H. subst.
      apply parse_number_length in Hp. simpl in Hp. lia.
    + intros s acc v r. rewrite parse_elements_step.
      destruct (parse_value fuel s) as [v0 r0 | | ] eqn:Hv; try discriminate.
      apply IHv in Hv.
      destruct (skip_ws r0) as [ | c rest] eqn:Hr; [discriminate | ].
      apply skip_ws_cons in Hr.
      destruct (is_char "," c).
      * intros H. apply IHe in H. lia.
      * destruct (is_char "]" c); [ | discriminate].
        intros H. inversion H. subst. lia.
    + intros s acc v r. rewrite parse_members_step.
      destruct (skip_ws s) as [ | c r0] eqn:Hs; [discriminate | ].
      apply skip_ws_cons in Hs.
      destruct (N.eqb c QUOTE); [ | discriminate].
      destruct (parse_string r0 []) as [[k r1] | ] eqn:Hp; [ | discriminate].
      apply (parse_string_length (List.length r0)) in Hp; [ | lia].
      destruct (skip_ws r1) as [ | c1 r2] eqn:H1; [discriminate | ].
      apply skip_ws_cons in H1.
      destruct (is_char ":" c1); [ | discriminate].
      destruct (parse_value fuel r2) as [v0 r3 | | ] eqn:Hv; try discriminate.
      apply IHv in Hv.
      destruct (skip_ws r3) as [ | c3 rest] eqn:H3; [discriminate | ].
      apply skip_ws_cons in H3.
      destruct (is_char "," c3).
      * intros H. apply IHm in H. lia.
      * destruct (is_char "}" c3); [ | discriminate].
        intros H. inversion H. subst. lia.
Qed.

(** With two units of fuel per code unit no parser is exhausted. *)
Lemma parse_fuel_enough (fuel : nat) :
  (forall s, 2 * List.length s < fuel -> parse_value fuel s <> Exhausted)
  /\ (forall s acc, 2 * List.length s + 1 < fuel ->
                    parse_elements fuel s acc <> Exhausted)
  /\ (forall s acc, 2 * List.length s + 1 < fuel ->
                    parse_members fuel s acc <> Exhausted).
Proof.
  induction fuel as [ | fuel [IHv [IHe IHm]]].
  - repeat split; intros; lia.
  - destruct (parse_consumes fuel) as [Cv _].
    repeat split.
    + intros s Hf. rewrite parse_value_step.
      destruct (skip_ws s) as [ | c r0] eqn:Hs; [discriminate | ].
      apply skip_ws_cons in Hs.
      destruct (N.eqb c QUOTE).
      { destruct (parse_string r0 []) as [[str rest] | ]; discriminate. }
      destruct (is_char "[" c).
      { destruct (skip_ws r0) as [ | c' rest]; [discriminate | ].
        destruct (is_char "]" c'); [discriminate | ].
        apply IHe. lia. }
      destruct (is_char "{" c).
      { destruct (skip_ws r0) as [ | c' rest]; [discriminate | ].
        destruct (is_char "}" c'); [discriminate | ].
        apply IHm. lia. }
      unfold expect.
      destruct (is_char "n" c).
      { destruct (starts_with (c :: r0) (lit "null")); discriminate. }
      destruct (is_char "t" c).
      { destruct (starts_with (c :: r0) (lit "true")); discriminate. }
      destruct (is_char "f" c).
      { destruct (starts_with (c :: r0) (lit "false")); discriminate. }
      destruct (is_char "-" c || is_digit c); [ | discriminate].
      destruct (parse_number (c :: r0)) as [[x rest] | ]; discriminate.
    + intros s acc Hf. rewrite parse_elements_step.
      destruct (parse_value fuel s) as [v0 r0 | | ] eqn:Hv.
      * apply Cv in Hv.
        destruct (skip_ws r0) as [ | c rest] eqn:Hr; [discriminate | ].
        apply skip_ws_cons in Hr.
        destruct (is_char "," c); [apply IHe; lia | ].
        destruct (is_char "]" c); discriminate.
      * discriminate.
      * exfalso. revert Hv. apply IHv. lia.
    + intros s acc Hf. rewrite parse_members_step.
      destruct (skip_ws s) as [ | c r0] eqn:Hs; [discriminate | ].
      apply skip_ws_cons in Hs.
      destruct (N.eqb c QUOTE); [ | discriminate].
      destruct (parse_string r0 []) as [[k r1] | ] eqn:Hp; [ | discriminate].
      apply (parse_string_length (List.length r0)) in Hp; [ | lia].
      destruct (skip_ws r1) as [ | c1 r2] eqn:H1; [discriminate | ].
      apply skip_ws_cons in H1.
      destruct (is_char ":" c1); [ | discriminate].
      destruct (parse_value fuel r2) as [v0 r3 | | ] eqn:Hv.
      * apply Cv in Hv.
        destruct (skip_ws r3) as [ | c3 rest] eqn:H3; [discriminate | ].
        apply skip_ws_cons in H3.
        destruct (is_char "," c3); [apply IHm; lia | ].
        destruct (is_char "}" c3); discriminate.
      * discriminate.
      * exfalso. revert Hv. apply IHv. lia.
Qed.

(** [JSON.parse] always has fuel to spare: a text is rejected only for
    being malformed or for what follows its value. *)
Theorem parse_never_exhausted (text : jsstring) :
  parse_value (fuel_for text) text <> Exhausted.
Proof.
  apply (proj1 (parse_fuel_enough (fuel_for text))).
  unfold fuel_for. lia.
Qed.

Corollary parse_none (text : jsstring) :
  JSON.parse text = None ->
  parse_value (fuel_for text) text = Malformed
  \/ exists v rest, parse_value (fuel_for text) text = Parsed v rest
                    /\ skip_ws rest <> [].
Proof.
  unfold JSON.parse. pose proof (parse_never_exhausted text) as Hx.
  destruct (parse_value (fuel_for text) text) as [v rest | | ].
  - destruct (skip_ws rest) eqn:E; simpl; [discriminate | ].
    intros _. right. exists v, rest. split; [reflexivity | ].
    rewrite E. discriminate.
  - intros _. left. reflexivity.
  - contradiction.
Qed.

End JsonFacts.

(** ** Reading the request *)

Lemma get_source (req_body : value) (k : jsstring) :
  get (or_else req_body (VObj [])) k = ret (own_prop req_body k).
Proof.
  destruct req_body as [ | | [|] | [ | | | ] | [|] | | ]; reflexivity.
Qed.

Lemma has_all_fields_split (b : value) :
  has_all_fields b =
  JsValue.truthy (own_prop b (lit "goal"))
  && JsValue.truthy (own_prop b (lit "experience"))
  && JsValue.truthy (own_prop b (lit "style"))
  && JsValue.truthy (own_prop b (lit "daysPerWeek")).
Proof.
  unfold has_all_fields, required_fields. simpl forallb.
  rewrite andb_true_r, !andb_assoc. reflexivity.
Qed.

Lemma guard_of_fields (b : value) :
  negb (JsValue.truthy (own_prop b (lit "goal")))
  || negb (JsValue.truthy (own_prop b (lit "experience")))
  || negb (JsValue.truthy (own_prop b (lit "style")))
  || negb (JsValue.truthy (own_prop b (lit "daysPerWeek")))
  = negb (has_all_fields b).
Proof.
  rewrite has_all_fields_split, !negb_andb. reflexivity.
Qed.

Lemma bind_ret {A B : Type} (a : A) (k : A -> M B) : bind (ret a) k = k a.
Proof. reflexivity. Qed.

(** The [try] body up to the two guards. *)
Lemma attempt_guards (key : option jsstring)
      (net : fetch_request -> fetch_result) (b : value) (w : world) :
  (has_all_fields b = false ->
   attempt key net b w = send 400 MISSING_FIELDS w)
  /\ (has_all_fields b = true -> configured key = false ->
      attempt key net b w = send 500 KEY_NOT_CONFIGURED w).
Proof.
  unfold attempt. cbv zeta.
  repeat (rewrite get_source, bind_ret; cbv beta).
  rewrite guard_of_fields. unfold configured.
  split.
  - intros ->. reflexivity.
  - intros -> ->. reflexivity.
Qed.

(** ** Reading the upstream answer *)

Lemma first_content_defined (data : value) :
  nullish data = false -> first_content data = ret (content_of data).
Proof.
  intros H. unfold first_content, get. rewrite H. reflexivity.
Qed.

Lemma first_content_nullish (data : value) :
  nullish data = true -> first_content data = throw TypeError.
Proof.
  intros H. unfold first_content, get. rewrite H. reflexivity.
Qed.

(** The [try] body of a complete request with the credential configured:
    the prompt is built, which may throw; then one call, then
    [after_answer]. *)
Lemma attempt_upstream (key : option jsstring)
      (net : fetch_request -> fetch_result) (b : value) :
  has_all_fields b = true -> configured key = true ->
  attempt key net b quiet =
  match upstream_request key b with
  | None => (Threw TypeError, quiet)
  | Some rq =>
      match net rq with
      | Rejected => (Threw NetworkError, called rq)
      | Resolved r => after_answer rq r
      end
  end.
Proof.
  intros Hf Hk. unfold attempt. cbv zeta.
  repeat (rewrite get_source, bind_ret; cbv beta).
  rewrite guard_of_fields, Hf. unfold configured in Hk. rewrite Hk.
  change (negb true) with false. cbv iota.
  fold (profile_of b). unfold upstream_request.
  destruct (buildPrompt (profile_of b)) as [prompt | ]; [ | reflexivity].
  simpl option_map. simpl or_throw. rewrite bind_ret.
  unfold bind at 1. unfold fetch.
  destruct (net (completion_request key prompt)) as [ | r]; [reflexivity | ].
  unfold after_answer, json, text.
  destruct (resp_body r) as [t | ]; [ | destruct (ok r); reflexivity].
  destruct (ok r); [ | reflexivity].
  change (negb true) with false. cbv iota.
  rewrite bind_ret.
  destruct (JSON.parse t) as [data | ]; [ | reflexivity].
  rewrite bind_ret.
  destruct (nullish data) eqn:Hd.
  - rewrite (first_content_nullish data Hd). reflexivity.
  - rewrite (first_content_defined data Hd), bind_ret. cbv zeta.
    fold (parsed_content (content_of data)).
    unfold try_or_return, lift.
    destruct (JSON_parse (parsed_content (content_of data))) as [plan | err];
      [ | reflexivity].
    unfold get. destruct (nullish plan); [reflexivity | ].
    rewrite bind_ret.
    destruct (is_array (own_prop plan (lit "weeks"))); reflexivity.
Qed.

Lemma handler_of_attempt (key : option jsstring)
      (net : fetch_request -> fetch_result) (b : value) (w : world) :
  handler key net b w =
  match attempt key net b w with
  | (Returned a, w') => (Returned a, w')
  | (Threw e, w') => rescue e w'
  end.
Proof. reflexivity. Qed.

(** A complete request with the credential configured, followed through
    the [catch]. *)
Lemma handler_upstream (key : option jsstring)
      (net : fetch_request -> fetch_result) (b : value)
      (rq : fetch_request) (r : response) :
  has_all_fields b = true -> configured key = true ->
  upstream_request key b = Some rq ->
  net rq = Resolved r ->
  handler key net b quiet =
  match after_answer rq r with
  | (Returned a, w') => (Returned a, w')
  | (Threw e, w') => rescue e w'
  end.
Proof.
  intros Hf Hk Hrq Hn.
  rewrite handler_of_attempt, (attempt_upstream key net b Hf Hk), Hrq, Hn.
  reflexivity.
Qed.

(** An exception leaves the [try] body before any log line or reply, with
    at most the one outbound call made. *)
Lemma attempt_throws_unanswered (key : option jsstring)
      (net : fetch_request -> fetch_result) (b : value)
      (e : js_error) (w : world) :
  attempt key net b quiet = (Threw e, w) ->
  (w = quiet /\ upstream_request key b = None)
  \/ exists rq, upstream_request key b = Some rq /\ w = called rq.
Proof.
  destruct (attempt_guards key net b quiet) as [Hbad Hnokey].
  destruct (has_all_fields b) eqn:Hf.
  - destruct (configured key) eqn:Hk.
    + rewrite (attempt_upstream key net b Hf Hk).
      destruct (upstream_request key b) as [rq | ].
      * intros H. right. exists rq. split; [reflexivity | ]. revert H.
        destruct (net rq) as [ | r].
        { intros H. inversion H. reflexivity. }
        unfold after_answer.
        destruct (resp_body r); [ | intros H; inversion H; reflexivity].
        destruct (negb (ok r)); [discriminate | ].
        destruct (JSON.parse j) as [data | ];
          [ | intros H; inversion H; reflexivity].
        destruct (nullish data); [intros H; inversion H; reflexivity | ].
        destruct (JSON_parse (parsed_content (content_of data)))
          as [plan | err]; [ | discriminate].
        destruct (nullish plan); [intros H; inversion H; reflexivity | ].
        destruct (is_array (own_prop plan (lit "weeks"))); discriminate.
      * intros H. inversion H. left. split; reflexivity.
    + rewrite (Hnokey eq_refl eq_refl). discriminate.
  - rewrite (Hbad eq_refl). discriminate.
Qed.

(** ** The value that is parsed *)

Lemma parsed_content_truthy (found : value) :
  JsValue.truthy found = true -> parsed_content found = found.
Proof. intros H. unfold parsed_content, or_else. rewrite H. reflexivity. Qed.

Lemma parsed_content_falsy (found : value) :
  JsValue.truthy found = false -> parsed_content found = VStr (lit "{}").
Proof. intros H. unfold parsed_content, or_else. rewrite H. reflexivity. Qed.

Lemma parse_empty_object : JSON_parse (VStr (lit "{}")) = Returned (VObj []).
Proof. vm_compute. reflexivity. Qed.

(** A falsy content, were it parsed as it is, would never hold a [weeks]
    array. *)
Lemma falsy_content_has_no_weeks (found plan : value) :
  JsValue.truthy found = false ->
  JSON_parse found = Returned plan ->
  is_array (own_prop plan (lit "weeks")) = false.
Proof.
  destruct found as [ | | [|] | [s|s| |s m e] | [|c s] | | ];
    simpl JsValue.truthy; try discriminate; intros _ H;
    vm_compute in H; try discriminate;
    injection H as <-; reflexivity.
Qed.

Lemma weeks_array_not_nullish (plan : value) :
  is_array (own_prop plan (lit "weeks")) = true -> nullish plan = false.
Proof. destruct plan; simpl; congruence. Qed.

Lemma content_of_nullish (data : value) :
  nullish data = true -> content_of data = VUndefined.
Proof. destruct data; simpl; try discriminate; reflexivity. Qed.

Lemma ok_iff (r : response) :
  ok r = true <-> (200 <= resp_status r <= 299)%Z.
Proof. unfold ok. rewrite andb_true_iff, !Z.leb_le. tauto. Qed.

Lemma hiit_prompt_built :
  buildPrompt (profile_of hiit_request) = Some hiit_prompt.
Proof. vm_compute. reflexivity. Qed.

Lemma hiit_upstream (key : option jsstring) :
  upstream_request key hiit_request
  = Some (completion_request key hiit_prompt).
Proof. unfold upstream_request. rewrite hiit_prompt_built. reflexivity. Qed.

(** For a plan that is not [null], the shape check alone decides. *)
Lemma weeks_missing_rejected (key : option jsstring)
      (net : fetch_request -> fetch_result) (b : value)
      (rq : fetch_request) (r : response) (t : jsstring)
      (data plan : value) :
  has_all_fields b = true -> configured key = true ->
  upstream_request key b = Some rq ->
  net rq = Resolved r ->
  ok r = true -> resp_body r = Some t ->
  JSON.parse t = Some data -> nullish data = false ->
  JSON_parse (parsed_content (content_of data)) = Returned plan ->
  nullish plan = false ->
  is_array (own_prop plan (lit "weeks")) = false ->
  handler key net b quiet =
  (Returned tt, called_replied rq 500 MISSING_WEEKS).
Proof.
  intros Hf Hk Hrq Hn Hok Ht Hd Hnn Hp Hpn Hw.
  rewrite (handler_upstream key net b rq r Hf Hk Hrq Hn).
  unfold after_answer. rewrite Ht, Hok, Hd, Hnn, Hp, Hpn, Hw. reflexivity.
Qed.

Ltac answered :=
  do 2 eexists; split; [reflexivity | split; [reflexivity | simpl; lia]].

(** Every request is answered exactly once, after at most one call. *)
Theorem handler_replies_once (key : option jsstring)
        (net : fetch_request -> fetch_result) (b : value) :
  exists (w : world) (r : reply),
    handler key net b quiet = (Returned tt, w)
    /\ replies w = [r] /\ List.length (calls w) <= 1.
Proof.
  rewrite handler_of_attempt.
  destruct (attempt_guards key net b quiet) as [Hbad Hnokey].
  destruct (has_all_fields b) eqn:Hf;
    [ | rewrite (Hbad eq_refl); answered ].
  destruct (configured key) eqn:Hk;
    [ | rewrite (Hnokey eq_refl eq_refl); answered ].
  rewrite (attempt_upstream key net b Hf Hk).
  destruct (upstream_request key b) as [rq | ]; [ | answered ].
  destruct (net rq) as [ | r]; [ answered | ].
  unfold after_answer.
  destruct (resp_body r); [ | answered ].
  destruct (negb (ok r)); [ answered | ].
  destruct (JSON.parse j) as [data | ]; [ | answered ].
  destruct (nullish data); [ answered | ].
  destruct (JSON_parse (parsed_content (content_of data))) as [plan | err];
    [ | answered ].
  destruct (nullish plan); [ answered | ].
  destruct (is_array (own_prop plan (lit "weeks"))); answered.
Qed.

(** ** The claims *)

(** C1.  A request in which any of [goal], [experience], [style],
    [daysPerWeek] is absent or falsy is answered with status 400 and the
    missing-fields message, and no call goes upstream. *)
Theorem missing_fields_rejected (key : option jsstring)
        (net : fetch_request -> fetch_result) (req_body : value) :
  has_all_fields req_body = false ->
  handler key net req_body quiet =
  (Returned tt,
   {| calls := [];
      errors := [];
      replies :=
        [{| status := 400;
            body := VObj [(lit "error",
                           VStr (lit "Missing required fields. Expect goal, experience, style, daysPerWeek."))] |}] |}).
Proof.
  intros Hf. rewrite handler_of_attempt.
  rewrite (proj1 (attempt_guards key net req_body quiet) Hf). reflexivity.
Qed.

Lemma missing_fields_rejected_witness :
  has_all_fields no_style_request = false
  /\ handler test_key unreachable no_style_request quiet
     = (Returned tt, only_reply 400 MISSING_FIELDS).
Proof.
  split.
  - reflexivity.
  - apply (missing_fields_rejected test_key unreachable no_style_request).
    reflexivity.
Defined.

(** A number of days that is zero counts as missing. *)
Example zero_days_rejected :
  handler test_key unreachable zero_days_request quiet
  = (Returned tt, only_reply 400 MISSING_FIELDS).
Proof. vm_compute. reflexivity. Qed.

(** C4.  Without a configured credential, a request that has all four
    fields is answered with status 500 and the configuration message, and
    no call goes upstream. *)
Theorem unconfigured_key_rejected (key : option jsstring)
        (net : fetch_request -> fetch_result) (req_body : value) :
  configured key = false ->
  has_all_fields req_body = true ->
  handler key net req_body quiet =
  (Returned tt,
   {| calls := [];
      errors := [];
      replies :=
        [{| status := 500;
            body := VObj [(lit "error",
                           VStr (lit "OPENAI_API_KEY is not configured on the server."))] |}] |}).
Proof.
  intros Hk Hf. rewrite handler_of_attempt.
  rewrite (proj2 (attempt_guards key net req_body quiet) Hf Hk). reflexivity.
Qed.

Lemma unconfigured_key_rejected_witness :
  handler None unreachable hiit_request quiet
  = (Returned tt, only_reply 500 KEY_NOT_CONFIGURED).
Proof.
  apply (unconfigured_key_rejected None unreachable hiit_request);
    reflexivity.
Defined.

(** C5, as the code has it.  An upstream answer with a status outside
    200..299 whose body can be read is relayed as status 502, with the
    fixed error text and the raw upstream body as [details]; the upstream
    was called once. *)
Theorem upstream_failure_relayed (key : option jsstring)
        (net : fetch_request -> fetch_result) (req_body : value)
        (rq : fetch_request) (r : response) (raw : jsstring) :
  has_all_fields req_body = true -> configured key = true ->
  upstream_request key req_body = Some rq ->
  net rq = Resolved r ->
  ~ (200 <= resp_status r <= 299)%Z ->
  resp_body r = Some raw ->
  handler key net req_body quiet =
  (Returned tt,
   {| calls := [rq];
      errors := [[LogValue (VStr (lit "OpenAI error:")); LogValue (VStr raw)]];
      replies :=
        [{| status := 502;
            body := VObj [(lit "error",
                           VStr (lit "Failed to generate workout plan from AI."));
                          (lit "details", VStr raw)] |}] |}).
Proof.
  intros Hf Hk Hrq Hn Hs Hb.
  rewrite (handler_upstream key net req_body rq r Hf Hk Hrq Hn).
  unfold after_answer. rewrite Hb.
  destruct (ok r) eqn:Hok.
  - apply ok_iff in Hok. contradiction.
  - reflexivity.
Qed.

Lemma upstream_failure_relayed_witness :
  handler test_key (answering 429 (lit "rate limited")) hiit_request quiet =
  (Returned tt,
   {| calls := [completion_request test_key hiit_prompt];
      errors := [[LogValue (VStr (lit "OpenAI error:"));
                  LogValue (VStr (lit "rate limited"))]];
      replies :=
        [{| status := 502;
            body := VObj [(lit "error",
                           VStr (lit "Failed to generate workout plan from AI."));
                          (lit "details", VStr (lit "rate limited"))] |}] |}).
Proof.
  apply (upstream_failure_relayed test_key (answering 429 (lit "rate limited"))
           hiit_request (completion_request test_key hiit_prompt)
           {| resp_status := 429;
              resp_body := Some (lit "rate limited") |}).
  - reflexivity.
  - reflexivity.
  - vm_compute. reflexivity.
  - reflexivity.
  - simpl. lia.
  - reflexivity.
Defined.

(** C5, as stated, fails on an answer whose body cannot be read: the
    status is outside 200..299, and yet reading the text throws and the
    reply is the unexpected 500, not the 502. *)
Lemma unreadable_failure_not_relayed :
  let r := {| resp_status := 503; resp_body := None |} in
  ~ (200 <= resp_status r <= 299)%Z
  /\ ok r = false
  /\ handler test_key (fun _ => Resolved r) hiit_request quiet =
     (Returned tt,
      {| calls := [completion_request test_key hiit_prompt];
         errors := [[LogValue (VStr (lit "Server error in /api/generate-workout-plan:"));
                     LogError NetworkError]];
         replies :=
           [{| status := 500;
               body := VObj [(lit "error",
                              VStr (lit "Unexpected server error."))] |}] |})
  /\ (forall details : value,
        replies (snd (handler test_key (fun _ => Resolved r)
                              hiit_request quiet))
        <> [{| status := 502;
               body := VObj [(lit "error",
                              VStr (lit "Failed to generate workout plan from AI."));
                             (lit "details", details)] |}]).
Proof.
  cbv zeta. split; [simpl; lia | ]. split; [reflexivity | ].
  split; [vm_compute; reflexivity | ].
  intros details H. vm_compute in H. discriminate.
Qed.

(** C7.  For the request [{ goal: "fat-loss", experience: "beginner",
    style: "HIIT", daysPerWeek: 3 }] with the credential configured, an
    upstream success whose first completion content is JSON text holding a
    [weeks] array of length 3 is answered with status 200 and
    [{ ok: true, plan }], the plan being the parsed content as it is. *)
Theorem three_week_plan_relayed (key : option jsstring)
        (net : fetch_request -> fetch_result)
        (r : response) (t : jsstring) (data plan : value)
        (weeks : list value) :
  configured key = true ->
  net (completion_request key hiit_prompt) = Resolved r ->
  (200 <= resp_status r <= 299)%Z ->
  resp_body r = Some t ->
  JSON.parse t = Some data ->
  JSON_parse (content_of data) = Returned plan ->
  own_prop plan (lit "weeks") = VArr weeks ->
  List.length weeks = 3 ->
  handler key net hiit_request quiet =
  (Returned tt,
   {| calls := [completion_request key hiit_prompt];
      errors := [];
      replies :=
        [{| status := 200;
            body := VObj [(lit "ok", VBool true); (lit "plan", plan)] |}] |}).
Proof.
  intros Hk Hn Hs Hb Hd Hp Hw _.
  assert (Hf : has_all_fields hiit_request = true) by reflexivity.
  assert (Harr : is_array (own_prop plan (lit "weeks")) = true)
    by (rewrite Hw; reflexivity).
  assert (Htruthy : JsValue.truthy (content_of data) = true).
  { destruct (JsValue.truthy (content_of data)) eqn:Hc; [reflexivity | ].
    rewrite (falsy_content_has_no_weeks _ _ Hc Hp) in Harr. discriminate. }
  assert (Hnn : nullish data = false).
  { destruct (nullish data) eqn:Hnull; [ | reflexivity].
    rewrite (content_of_nullish data Hnull) in Htruthy. discriminate. }
  rewrite (handler_upstream key net hiit_request
             (completion_request key hiit_prompt) r Hf Hk
             (hiit_upstream key) Hn).
  unfold after_answer. rewrite Hb.
  apply ok_iff in Hs. rewrite Hs, Hd, Hnn.
  rewrite (parsed_content_truthy _ Htruthy), Hp.
  rewrite (weeks_array_not_nullish plan Harr), Harr. reflexivity.
Qed.

Lemma three_week_plan_relayed_witness :
  handler test_key (answering 200 (completion three_weeks_content))
          hiit_request quiet =
  (Returned tt,
   {| calls := [completion_request test_key hiit_prompt];
      errors := [];
      replies :=
        [{| status := 200;
            body := VObj [(lit "ok", VBool true);
                          (lit "plan", three_weeks_plan)] |}] |}).
Proof.
  apply (three_week_plan_relayed test_key
           (answering 200 (completion three_weeks_content))
           {| resp_status := 200;
              resp_body := Some (completion three_weeks_content) |}
           (completion three_weeks_content)
           (VObj [(lit "choices",
                   VArr [VObj [(lit "message",
                                VObj [(lit "role", VStr (lit "assistant"));
                                      (lit "content",
                                       VStr (lit "{" ++ quoted "weekCount"
                                             ++ lit ":3," ++ quoted "weeks"
                                             ++ lit ":[{" ++ quoted "weekNumber"
                                             ++ lit ":1},{" ++ quoted "weekNumber"
                                             ++ lit ":2},{" ++ quoted "weekNumber"
                                             ++ lit ":3}]}"))])]])])
           three_weeks_plan
           [VObj [(lit "weekNumber", VNum (JsNumber.of_Z 1))];
            VObj [(lit "weekNumber", VNum (JsNumber.of_Z 2))];
            VObj [(lit "weekNumber", VNum (JsNumber.of_Z 3))]]).
  - reflexivity.
  - reflexivity.
  - simpl. lia.
  - reflexivity.
  - vm_compute. reflexivity.
  - vm_compute. reflexivity.
  - reflexivity.
  - reflexivity.
Defined.

(** C6, as the code has it.  An upstream success whose first completion
    content is truthy and cannot be parsed as JSON (it has no string
    rendering, or its rendering is not JSON text) is answered with status
    500 and the not-valid-JSON message; the content is logged. *)
Theorem unparseable_content_rejected (key : option jsstring)
        (net : fetch_request -> fetch_result) (req_body : value)
        (rq : fetch_request) (r : response) (t : jsstring)
        (data : value) (err : js_error) :
  has_all_fields req_body = true -> configured key = true ->
  upstream_request key req_body = Some rq ->
  net rq = Resolved r ->
  (200 <= resp_status r <= 299)%Z ->
  resp_body r = Some t ->
  JSON.parse t = Some data ->
  JsValue.truthy (content_of data) = true ->
  JSON_parse (content_of data) = Threw err ->
  handler key net req_body quiet =
  (Returned tt,
   {| calls := [rq];
      errors := [[LogValue (VStr (lit "JSON parse error from OpenAI:"));
                  LogError err; LogValue (content_of data)]];
      replies :=
        [{| status := 500;
            body := VObj [(lit "error",
                           VStr (lit "AI response was not valid JSON."))] |}] |}).
Proof.
  intros Hf Hk Hrq Hn Hs Hb Hd Hc Hp.
  assert (Hnn : nullish data = false).
  { destruct (nullish data) eqn:Hnull; [ | reflexivity].
    rewrite (content_of_nullish data Hnull) in Hc. discriminate. }
  rewrite (handler_upstream key net req_body rq r Hf Hk Hrq Hn).
  unfold after_answer. rewrite Hb.
  apply ok_iff in Hs. rewrite Hs, Hd, Hnn.
  rewrite (parsed_content_truthy _ Hc), Hp. reflexivity.
Qed.

Lemma unparseable_content_rejected_witness :
  handler test_key (answering 200 (completion (quoted "Here is your plan!")))
          hiit_request quiet =
  (Returned tt,
   {| calls := [completion_request test_key hiit_prompt];
      errors := [[LogValue (VStr (lit "JSON parse error from OpenAI:"));
                  LogError SyntaxError;
                  LogValue (VStr (lit "Here is your plan!"))]];
      replies :=
        [{| status := 500;
            body := VObj [(lit "error",
                           VStr (lit "AI response was not valid JSON."))] |}] |}).
Proof.
  apply (unparseable_content_rejected test_key
           (answering 200 (completion (quoted "Here is your plan!")))
           hiit_request (completion_request test_key hiit_prompt)
           {| resp_status := 200;
              resp_body := Some (completion (quoted "Here is your plan!")) |}
           (completion (quoted "Here is your plan!"))
           (VObj [(lit "choices",
                   VArr [VObj [(lit "message",
                                VObj [(lit "role", VStr (lit "assistant"));
                                      (lit "content",
                                       VStr (lit "Here is your plan!"))])]])])
           SyntaxError).
  - reflexivity.
  - reflexivity.
  - vm_compute. reflexivity.
  - reflexivity.
  - simpl. lia.
  - reflexivity.
  - vm_compute. reflexivity.
  - reflexivity.
  - vm_compute. reflexivity.
Defined.

(** C6, as stated, fails on the empty string: that content is present and
    is not JSON text, yet the answer is the missing-weeks message. *)
Lemma empty_content_not_a_parse_error :
  let t := completion (quoted "") in
  let data := VObj [(lit "choices",
                     VArr [VObj [(lit "message",
                                  VObj [(lit "role", VStr (lit "assistant"));
                                        (lit "content", VStr [])])]])] in
  JSON.parse t = Some data
  /\ content_of data = VStr []
  /\ JSON_parse (content_of data) = Threw SyntaxError
  /\ handler test_key (answering 200 t) hiit_request quiet =
     (Returned tt,
      {| calls := [completion_request test_key hiit_prompt];
         errors := [];
         replies :=
           [{| status := 500;
               body := VObj [(lit "error",
                              VStr (lit "Workout plan missing 'weeks' array in AI response."))] |}] |})
  /\ MISSING_WEEKS <> NOT_VALID_JSON.
Proof.
  cbv zeta. repeat split; try (vm_compute; reflexivity).
  discriminate.
Qed.

(** C8, as the code has it.  After an upstream success whose body is JSON
    text other than [null], what the handler parses is the first
    completion's message content when that content is truthy: the reply
    is the one that parsing this very content leads to.  Whenever the
    content is falsy (absent, [null], [false], zero or the empty string)
    the text [{}] is parsed in its place: such a content is never answered
    with the JSON-parse error but by the shape check, with the
    missing-weeks message. *)
Theorem falsy_content_defaults (key : option jsstring)
        (net : fetch_request -> fetch_result) (req_body : value)
        (rq : fetch_request) (r : response) (t : jsstring) (data : value) :
  has_all_fields req_body = true -> configured key = true ->
  upstream_request key req_body = Some rq ->
  net rq = Resolved r ->
  (200 <= resp_status r <= 299)%Z ->
  resp_body r = Some t ->
  JSON.parse t = Some data ->
  nullish data = false ->
  (JsValue.truthy (content_of data) = true ->
   handler key net req_body quiet =
   match JSON_parse (content_of data) with
   | Threw err =>
       (Returned tt,
        {| calls := [rq];
           errors := [[LogValue (VStr (lit "JSON parse error from OpenAI:"));
                       LogError err; LogValue (content_of data)]];
           replies :=
             [{| status := 500;
                 body := VObj [(lit "error",
                                VStr (lit "AI response was not valid JSON."))] |}] |})
   | Returned plan =>
       if nullish plan then
         (Returned tt,
          {| calls := [rq];
             errors := [[LogValue (VStr (lit "Server error in /api/generate-workout-plan:"));
                         LogError TypeError]];
             replies :=
               [{| status := 500;
                   body := VObj [(lit "error",
                                  VStr (lit "Unexpected server error."))] |}] |})
       else if is_array (own_prop plan (lit "weeks")) then
         (Returned tt,
          {| calls := [rq];
             errors := [];
             replies :=
               [{| status := 200;
                   body := VObj [(lit "ok", VBool true);
                                 (lit "plan", plan)] |}] |})
       else
         (Returned tt,
          {| calls := [rq];
             errors := [];
             replies :=
               [{| status := 500;
                   body := VObj [(lit "error",
                                  VStr (lit "Workout plan missing 'weeks' array in AI response."))] |}] |})
   end)
  /\ (JsValue.truthy (content_of data) = false ->
      handler key net req_body quiet =
      (Returned tt,
       {| calls := [rq];
          errors := [];
          replies :=
            [{| status := 500;
                body := VObj [(lit "error",
                               VStr (lit "Workout plan missing 'weeks' array in AI response."))] |}] |})).
Proof.
  intros Hf Hk Hrq Hn Hs Hb Hd Hnn.
  apply ok_iff in Hs. split.
  - intros Hc.
    rewrite (handler_upstream key net req_body rq r Hf Hk Hrq Hn).
    unfold after_answer. rewrite Hb, Hs, Hd, Hnn.
    rewrite (parsed_content_truthy _ Hc).
    destruct (JSON_parse (content_of data)) as [plan | err];
      [ | reflexivity].
    destruct (nullish plan); [reflexivity | ].
    destruct (is_array (own_prop plan (lit "weeks"))); reflexivity.
  - intros Hc.
    apply (weeks_missing_rejected key net req_body rq r t data (VObj []));
      try assumption; try reflexivity.
    rewrite (parsed_content_falsy _ Hc). apply parse_empty_object.
Qed.

(** Once on a content that is there, the plan of three weeks, and once on
    an answer without any choice. *)
Lemma falsy_content_defaults_witness :
  handler test_key (answering 200 (completion three_weeks_content))
          hiit_request quiet =
  (Returned tt,
   {| calls := [completion_request test_key hiit_prompt];
      errors := [];
      replies :=
        [{| status := 200;
            body := VObj [(lit "ok", VBool true);
                          (lit "plan", three_weeks_plan)] |}] |})
  /\ handler test_key (answering 200 (lit "{" ++ quoted "choices" ++ lit ":[]}"))
             hiit_request quiet =
     (Returned tt,
      {| calls := [completion_request test_key hiit_prompt];
         errors := [];
         replies :=
           [{| status := 500;
               body := VObj [(lit "error",
                              VStr (lit "Workout plan missing 'weeks' array in AI response."))] |}] |}).
Proof.
  split.
  - refine (eq_trans
              (proj1 (falsy_content_defaults test_key
                        (answering 200 (completion three_weeks_content))
                        hiit_request (completion_request test_key hiit_prompt)
                        {| resp_status := 200;
                           resp_body := Some (completion three_weeks_content) |}
                        (completion three_weeks_content)
                        (VObj [(lit "choices",
                                VArr [VObj [(lit "message",
                                             VObj [(lit "role", VStr (lit "assistant"));
                                                   (lit "content",
                                                    VStr (lit "{" ++ quoted "weekCount"
                                                          ++ lit ":3," ++ quoted "weeks"
                                                          ++ lit ":[{" ++ quoted "weekNumber"
                                                          ++ lit ":1},{" ++ quoted "weekNumber"
                                                          ++ lit ":2},{" ++ quoted "weekNumber"
                                                          ++ lit ":3}]}"))])]])])
                        _ _ _ _ _ _ _ _) _) _).
    + reflexivity.
    + reflexivity.
    + vm_compute. reflexivity.
    + reflexivity.
    + simpl. lia.
    + reflexivity.
    + vm_compute. reflexivity.
    + reflexivity.
    + reflexivity.
    + vm_compute. reflexivity.
  - refine (proj2 (falsy_content_defaults test_key
                     (answering 200 (lit "{" ++ quoted "choices" ++ lit ":[]}"))
                     hiit_request (completion_request test_key hiit_prompt)
                     {| resp_status := 200;
                        resp_body := Some (lit "{" ++ quoted "choices"
                                           ++ lit ":[]}") |}
                     (lit "{" ++ quoted "choices" ++ lit ":[]}")
                     (VObj [(lit "choices", VArr [])])
                     _ _ _ _ _ _ _ _) _).
    + reflexivity.
    + reflexivity.
    + vm_compute. reflexivity.
    + reflexivity.
    + simpl. lia.
    + reflexivity.
    + vm_compute. reflexivity.
    + reflexivity.
    + reflexivity.
Defined.

(** C8, as stated, fails on a content that is present and falsy: the
    empty string is there, and yet the value parsed is the text [{}], so
    that the answer is the one of the shape check and not the JSON-parse
    error which the content itself would give. *)
Lemma present_content_defaulted :
  let t := completion (quoted "") in
  let data := VObj [(lit "choices",
                     VArr [VObj [(lit "message",
                                  VObj [(lit "role", VStr (lit "assistant"));
                                        (lit "content", VStr [])])]])] in
  JSON.parse t = Some data
  /\ content_of data = VStr []
  /\ content_of data <> VUndefined
  /\ parsed_content (content_of data) = VStr (lit "{}")
  /\ parsed_content (content_of data) <> content_of data
  /\ JSON_parse (content_of data) = Threw SyntaxError
  /\ replies (snd (handler test_key (answering 200 t) hiit_request quiet))
     = [{| status := 500; body := MISSING_WEEKS |}].
Proof.
  cbv zeta. repeat split; try (vm_compute; reflexivity); discriminate.
Qed.

(** The same default applies to the content [false]. *)
Example false_content_defaulted :
  let data := VObj [(lit "choices",
                     VArr [VObj [(lit "message",
                                  VObj [(lit "content", VBool false)])]])] in
  content_of data = VBool false
  /\ parsed_content (content_of data) = VStr (lit "{}").
Proof. cbv zeta. split; reflexivity. Qed.

(** An upstream success whose body is the text [null] has no content
    either, and is answered through the [catch]. *)
Lemma null_answer_unexpected :
  handler test_key (answering 200 (lit "null")) hiit_request quiet =
  (Returned tt,
   called_logged_replied (completion_request test_key hiit_prompt)
     [LogValue (VStr (lit "Server error in /api/generate-workout-plan:"));
      LogError TypeError]
     500 UNEXPECTED).
Proof. vm_compute. reflexivity. Qed.

(** C2.  The content [null] is JSON text and has no [weeks] array, yet
    reading [plan.weeks] throws and the answer is the unexpected-error
    message, not the missing-weeks one. *)
Theorem null_plan_unexpected :
  let t := completion (quoted "null") in
  let data := VObj [(lit "choices",
                     VArr [VObj [(lit "message",
                                  VObj [(lit "role", VStr (lit "assistant"));
                                        (lit "content", VStr (lit "null"))])]])] in
  JSON.parse t = Some data
  /\ JSON_parse (content_of data) = Returned VNull
  /\ handler test_key (answering 200 t) hiit_request quiet =
     (Returned tt,
      {| calls := [completion_request test_key hiit_prompt];
         errors := [[LogValue (VStr (lit "Server error in /api/generate-workout-plan:"));
                     LogError TypeError]];
         replies :=
           [{| status := 500;
               body := VObj [(lit "error",
                              VStr (lit "Unexpected server error."))] |}] |})
  /\ UNEXPECTED <> MISSING_WEEKS.
Proof.
  cbv zeta. repeat split; try (vm_compute; reflexivity).
  discriminate.
Qed.

(** C9.  No exception leaves the handler, and one thrown inside the [try]
    is logged and answered with status 500 and the unexpected-error
    message, nothing having been logged or sent before. *)
Theorem exceptions_answered_500 (key : option jsstring)
        (net : fetch_request -> fetch_result) (req_body : value) :
  (exists w, handler key net req_body quiet = (Returned tt, w))
  /\ forall (e : js_error) (w : world),
       attempt key net req_body quiet = (Threw e, w) ->
       handler key net req_body quiet =
       (Returned tt,
        {| calls := calls w;
           errors := [[LogValue (VStr (lit "Server error in /api/generate-workout-plan:"));
                       LogError e]];
           replies :=
             [{| status := 500;
                 body := VObj [(lit "error",
                                VStr (lit "Unexpected server error."))] |}] |}).
Proof.
  split.
  - destruct (handler_replies_once key net req_body) as [w [r [H _]]].
    exists w. exact H.
  - intros e w H.
    rewrite handler_of_attempt, H.
    destruct (attempt_throws_unanswered key net req_body e w H)
      as [[-> _] | [rq [_ ->]]]; reflexivity.
Qed.

Lemma exceptions_answered_500_witness :
  handler test_key unreachable hiit_request quiet =
  (Returned tt,
   {| calls := [completion_request test_key hiit_prompt];
      errors := [[LogValue (VStr (lit "Server error in /api/generate-workout-plan:"));
                  LogError NetworkError]];
      replies :=
        [{| status := 500;
            body := VObj [(lit "error",
                           VStr (lit "Unexpected server error."))] |}] |}).
Proof.
  apply (proj2 (exceptions_answered_500 test_key unreachable hiit_request)
           NetworkError (called (completion_request test_key hiit_prompt))).
  vm_compute. reflexivity.
Defined.

(** A field without a string rendering makes the template throw before
    any call; that too is answered through the [catch]. *)
Example opaque_goal_unexpected :
  has_all_fields opaque_goal_request = true
  /\ buildPrompt (profile_of opaque_goal_request) = None
  /\ handler test_key (answering 200 (completion three_weeks_content))
             opaque_goal_request quiet =
     (Returned tt,
      {| calls := [];
         errors := [[LogValue (VStr (lit "Server error in /api/generate-workout-plan:"));
                     LogError TypeError]];
         replies := [{| status := 500; body := UNEXPECTED |}] |}).
Proof. repeat split; vm_compute; reflexivity. Qed.

(** C10.  A request whose body is [undefined] or [null] is destructured
    from an empty object instead: the [try] body does not throw, and the
    answer is the 400 missing-fields reply. *)
Theorem absent_body_rejected (key : option jsstring)
        (net : fetch_request -> fetch_result) (req_body : value) :
  nullish req_body = true ->
  or_else req_body (VObj []) = VObj []
  /\ attempt key net req_body quiet
     = (Returned tt, only_reply 400 MISSING_FIELDS)
  /\ handler key net req_body quiet =
     (Returned tt,
      {| calls := [];
         errors := [];
         replies :=
           [{| status := 400;
               body := VObj [(lit "error",
                              VStr (lit "Missing required fields. Expect goal, experience, style, daysPerWeek."))] |}] |}).
Proof.
  intros Hn.
  assert (Hf : has_all_fields req_body = false)
    by (destruct req_body; try discriminate; reflexivity).
  split; [destruct req_body; try discriminate; reflexivity | ].
  split.
  - rewrite (proj1 (attempt_guards key net req_body quiet) Hf). reflexivity.
  - rewrite handler_of_attempt,
      (proj1 (attempt_guards key net req_body quiet) Hf). reflexivity.
Qed.

Lemma absent_body_rejected_witness :
  handler test_key unreachable VUndefined quiet
  = (Returned tt, only_reply 400 MISSING_FIELDS).
Proof.
  apply (absent_body_rejected test_key unreachable VUndefined). reflexivity.
Defined.

(** C3.  For string [goal], [experience], [style] and a number
    [daysPerWeek], the prompt is determined by the four fields: it is the
    text of the template, written out here line by line, with the four
    values spliced in as they are (the number in its decimal rendering,
    twice).  So it holds each value verbatim, holds all the fixed text, and
    asks for JSON and nothing else. *)
Theorem prompt_embeds_fields (g e s : jsstring) (d : JsNumber.number) :
  exists prompt : jsstring,
    buildPrompt {| goal := VStr g; experience := VStr e;
                   style := VStr s; daysPerWeek := VNum d |} = Some prompt
    /\ prompt =
      LF
      ++ lit "    You are a professional strength & conditioning coach creating a safe, realistic workout plan." ++ LF
      ++ LF
      ++ lit "    User profile:" ++ LF
      ++ lit "    - Goal: " ++ g ++ LF
      ++ lit "    - Experience level: " ++ e ++ LF
      ++ lit "    - Preferred workout style: " ++ s ++ LF
      ++ lit "    - Days per week: " ++ JsNumber.toString d ++ LF
      ++ lit "    - Duration: 6" ++ EN_DASH ++ lit "8 weeks total" ++ LF
      ++ LF
      ++ lit "    Requirements:" ++ LF
      ++ lit "    1. Create a structured training plan that lasts 6 weeks by default (you may go up to 8 if it makes sense)." ++ LF
      ++ lit "    2. Use the specified number of training days per week (" ++ JsNumber.toString d ++ lit ") and fill each day with an appropriate workout." ++ LF
      ++ lit "    3. Match intensity and complexity to the user's experience level." ++ LF
      ++ lit "    4. Respect the style (e.g., Weightlifting, Pilates, HIIT, Cardio, Outdoor, Home Workouts)." ++ LF
      ++ lit "    5. Include rest or active recovery days where appropriate." ++ LF
      ++ lit "    6. Avoid unsafe volume or crazy supersets. Assume normal healthy adult with no injuries." ++ LF
      ++ LF
      ++ lit "    Return ONLY valid JSON with this exact shape (no extra text):" ++ LF
      ++ LF
      ++ lit "    {" ++ LF
      ++ lit "    " ++ quoted "weekCount" ++ lit ": number," ++ LF
      ++ lit "    " ++ quoted "daysPerWeek" ++ lit ": number," ++ LF
      ++ lit "    " ++ quoted "summary" ++ lit ": {" ++ LF
      ++ lit "        " ++ quoted "title" ++ lit ": string," ++ LF
      ++ lit "        " ++ quoted "description" ++ lit ": string," ++ LF
      ++ lit "        " ++ quoted "notes" ++ lit ": string" ++ LF
      ++ lit "    }," ++ LF
      ++ lit "    " ++ quoted "weeks" ++ lit ": [" ++ LF
      ++ lit "        {" ++ LF
      ++ lit "        " ++ quoted "weekNumber" ++ lit ": number," ++ LF
      ++ lit "        " ++ quoted "focus" ++ lit ": string," ++ LF
      ++ lit "        " ++ quoted "days" ++ lit ": [" ++ LF
      ++ lit "            {" ++ LF
      ++ lit "            " ++ quoted "id" ++ lit ": string," ++ LF
      ++ lit "            " ++ quoted "dayName" ++ lit ": string," ++ LF
      ++ lit "            " ++ quoted "title" ++ lit ": string," ++ LF
      ++ lit "            " ++ quoted "focus" ++ lit ": string," ++ LF
      ++ lit "            " ++ quoted "durationMinutes" ++ lit ": number," ++ LF
      ++ lit "            " ++ quoted "exerciseCount" ++ lit ": number," ++ LF
      ++ lit "            " ++ quoted "style" ++ lit ": string," ++ LF
      ++ lit "            " ++ quoted "experience" ++ lit ": string," ++ LF
      ++ lit "            " ++ quoted "exercises" ++ lit ": [" ++ LF
      ++ lit "                {" ++ LF
      ++ lit "                " ++ quoted "name" ++ lit ": string," ++ LF
      ++ lit "                " ++ quoted "sets" ++ lit ": number," ++ LF
      ++ lit "                " ++ quoted "reps" ++ lit ": string," ++ LF
      ++ lit "                " ++ quoted "equipment" ++ lit ": string," ++ LF
      ++ lit "                " ++ quoted "notes" ++ lit ": string" ++ LF
      ++ lit "                }" ++ LF
      ++ lit "            ]" ++ LF
      ++ lit "            }" ++ LF
      ++ lit "        ]" ++ LF
      ++ lit "        }" ++ LF
      ++ lit "    ]" ++ LF
      ++ lit "    }" ++ LF
      ++ lit "    "
    /\ contains prompt g
    /\ contains prompt e
    /\ contains prompt s
    /\ contains prompt (JsNumber.toString d)
    /\ contains prompt
         (lit "Return ONLY valid JSON with this exact shape (no extra text):").
Proof.
  exists (template g e s (JsNumber.toString d)).
  split; [reflexivity | ].
  split; [reflexivity | ].
  unfold template.
  split; [apply contains_here | ].
  split; [do 2 apply contains_later; apply contains_here | ].
  split; [do 4 apply contains_later; apply contains_here | ].
  split; [do 6 apply contains_later; apply contains_here | ].
  do 11 apply contains_later.
  exists (lit "    "), (LF ++ line "" ++ json_shape ++ lit "    ").
  reflexivity.
Qed.

(** The sample request renders its three days as [3]. *)
Example hiit_prompt_lines :
  includes hiit_prompt (lit "    - Goal: fat-loss" ++ LF) = true
  /\ includes hiit_prompt (lit "    - Experience level: beginner" ++ LF) = true
  /\ includes hiit_prompt (lit "    - Preferred workout style: HIIT" ++ LF) = true
  /\ includes hiit_prompt (lit "    - Days per week: 3" ++ LF) = true
  /\ includes hiit_prompt (lit "days per week (3) and fill each day") = true
  /\ includes hiit_prompt json_only = true.
Proof. repeat split; vm_compute; reflexivity. Qed.

(** * What [JSON.parse] yields *)

Module JsonShape.

Import JSON JsonFacts.

Lemma expect_value (word : jsstring) (v v' : value) (s r : jsstring) :
  expect word v s = Parsed v' r -> v' = v.
Proof.
  unfold expect. destruct (starts_with s word); [ | discriminate].
  intros H. inversion H. reflexivity.
Qed.

(** No parser yields [undefined]. *)
Lemma parse_shape (fuel : nat) :
  (forall s v r, parse_value fuel s = Parsed v r -> v <> VUndefined)
  /\ (forall s acc v r, parse_elements fuel s acc = Parsed v r ->
                        v <> VUndefined)
  /\ (forall s acc v r, parse_members fuel s acc = Parsed v r ->
                        v <> VUndefined).
Proof.
  induction fuel as [ | fuel [IHv [IHe IHm]]].
  - repeat split; intros; discriminate.
  - repeat split.
    + intros s v r. rewrite parse_value_step.
      destruct (skip_ws s) as [ | c r0]; [discriminate | ].
      destruct (N.eqb c QUOTE).
      { destruct (parse_string r0 []) as [[str rest] | ]; [ | discriminate].
        intros H. inversion H. discriminate. }
      destruct (is_char "[" c).
      { destruct (skip_ws r0) as [ | c' rest]; [discriminate | ].
        destruct (is_char "]" c').
        - intros H. inversion H. discriminate.
        - apply IHe. }
      destruct (is_char "{" c).
      { destruct (skip_ws r0) as [ | c' rest]; [discriminate | ].
        destruct (is_char "}" c').
        - intros H. inversion H. discriminate.
        - apply IHm. }
      destruct (is_char "n" c).
      { intros H. apply expect_value in H. subst. discriminate. }
      destruct (is_char "t" c).
      { intros H. apply expect_value in H. subst. discriminate. }
      destruct (is_char "f" c).
      { intros H. apply expect_value in H. subst. discriminate. }
      destruct (is_char "-" c || is_digit c); [ | discriminate].
      destruct (parse_number (c :: r0)) as [[x rest] | ]; [ | discriminate].
      intros H. inversion H. discriminate.
    + intros s acc v r. rewrite parse_elements_step.
      destruct (parse_value fuel s) as [v0 r0 | | ]; try discriminate.
      destruct (skip_ws r0) as [ | c rest]; [discriminate | ].
      destruct (is_char "," c); [apply IHe | ].
      destruct (is_char "]" c); [ | discriminate].
      intros H. inversion H. discriminate.
    + intros s acc v r. rewrite parse_members_step.
      destruct (skip_ws s) as [ | c r0]; [discriminate | ].
      destruct (N.eqb c QUOTE); [ | discriminate].
      destruct (parse_string r0 []) as [[k r1] | ]; [ | discriminate].
      destruct (skip_ws r1) as [ | c1 r2]; [discriminate | ].
      destruct (is_char ":" c1); [ | discriminate].
      destruct (parse_value fuel r2) as [v0 r3 | | ]; try discriminate.
      destruct (skip_ws r3) as [ | c3 rest]; [discriminate | ].
      destruct (is_char "," c3); [apply IHm | ].
      destruct (is_char "}" c3); [ | discriminate].
      intros H. inversion H. discriminate.
Qed.

Lemma parse_defined (text : jsstring) : JSON.parse text <> Some VUndefined.
Proof.
  unfold JSON.parse.
  destruct (parse_value (fuel_for text) text) as [v rest | | ] eqn:E;
    try discriminate.
  destruct (is_empty (skip_ws rest)); [ | discriminate].
  intros H. injection H as ->.
  apply (proj1 (parse_shape (fuel_for text))) in E. apply E. reflexivity.
Qed.

End JsonShape.

(** * Further properties of the handler *)

(** ** Every way a request can end *)

(** The handler returns normally, in one of the twelve ways of [served]. *)
Lemma handler_served (key : option jsstring)
      (net : fetch_request -> fetch_result) (b : value) :
  exists w : world,
    handler key net b quiet = (Returned tt, w) /\ served key net b w.
Proof.
  rewrite handler_of_attempt.
  destruct (attempt_guards key net b quiet) as [Hbad Hnokey].
  destruct (has_all_fields b) eqn:Hf.
  2: { rewrite (Hbad eq_refl). eexists. split; [reflexivity | ].
       apply served_missing. exact Hf. }
  destruct (configured key) eqn:Hk.
  2: { rewrite (Hnokey eq_refl eq_refl). eexists. split; [reflexivity | ].
       apply served_unconfigured; assumption. }
  rewrite (attempt_upstream key net b Hf Hk).
  destruct (upstream_request key b) as [rq | ] eqn:Hrq.
  2: { eexists. split; [reflexivity | ].
       apply served_unrenderable; assumption. }
  destruct (net rq) as [ | r] eqn:Hn.
  { eexists. split; [reflexivity | ].
    apply served_rejected; assumption. }
  unfold after_answer.
  destruct (resp_body r) as [t | ] eqn:Hb.
  2: { eexists. split; [reflexivity | ].
       apply (served_unreadable key net b rq r); assumption. }
  destruct (ok r) eqn:Hok; simpl negb; cbv iota.
  2: { eexists. split; [reflexivity | ].
       apply (served_failed key net b rq r t); assumption. }
  destruct (JSON.parse t) as [data | ] eqn:Hd.
  2: { eexists. split; [reflexivity | ].
       apply (served_not_json key net b rq r t); assumption. }
  destruct (nullish data) eqn:Hnn.
  { eexists. split; [reflexivity | ].
    apply (served_null_answer key net b rq r t data); assumption. }
  destruct (JSON_parse (parsed_content (content_of data)))
    as [plan | err] eqn:Hp.
  2: { eexists. split; [reflexivity | ].
       apply (served_bad_content key net b rq r t data err); assumption. }
  destruct (nullish plan) eqn:Hpn.
  { eexists. split; [reflexivity | ].
    apply (served_null_plan key net b rq r t data plan); assumption. }
  destruct (is_array (own_prop plan (lit "weeks"))) eqn:Hw.
  - eexists. split; [reflexivity | ].
    apply (served_success key net b rq r t data plan); assumption.
  - eexists. split; [reflexivity | ].
    apply (served_no_weeks key net b rq r t data plan); assumption.
Qed.

Lemma handler_world (key : option jsstring)
      (net : fetch_request -> fetch_result) (b : value) :
  served key net b (snd (handler key net b quiet))
  /\ fst (handler key net b quiet) = Returned tt.
Proof.
  destruct (handler_served key net b) as [w [H S]].
  rewrite H. split; [exact S | reflexivity].
Qed.

(** X1.  Every request is answered exactly once, and the answer is one of
    seven: 400 missing fields, 500 key not configured, 502 with the
    upstream text, 500 not valid JSON, 500 missing weeks, 500 unexpected,
    or 200 with a plan. *)
Theorem reply_is_one_of_seven (key : option jsstring)
        (net : fetch_request -> fetch_result) (req_body : value) :
  exists r : reply,
    replies (snd (handler key net req_body quiet)) = [r]
    /\ ((status r = 400%Z /\ body r = MISSING_FIELDS)
        \/ (status r = 500%Z /\ body r = KEY_NOT_CONFIGURED)
        \/ (status r = 502%Z /\ exists t, body r = UPSTREAM_FAILED t)
        \/ (status r = 500%Z /\ body r = NOT_VALID_JSON)
        \/ (status r = 500%Z /\ body r = MISSING_WEEKS)
        \/ (status r = 500%Z /\ body r = UNEXPECTED)
        \/ (status r = 200%Z /\ exists plan, body r = SUCCESS plan)).
Proof.
  destruct (handler_world key net req_body) as [S _].
  inversion S; (eexists; split; [reflexivity | simpl]).
  - tauto.
  - tauto.
  - tauto.
  - tauto.
  - tauto.
  - right; right; left. split; [reflexivity | ]. exists t. reflexivity.
  - tauto.
  - tauto.
  - tauto.
  - tauto.
  - tauto.
  - do 6 right. split; [reflexivity | ]. exists plan. reflexivity.
Qed.

(** X2.  A reply of status 200 is sent only for a complete request, with
    the credential configured, after exactly one call that upstream
    answered with a 2xx status, for a plan whose [weeks] is an array;
    nothing is logged. *)
Theorem success_only_with_weeks (key : option jsstring)
        (net : fetch_request -> fetch_result) (req_body : value)
        (r : reply) :
  In r (replies (snd (handler key net req_body quiet))) ->
  status r = 200%Z ->
  has_all_fields req_body = true
  /\ configured key = true
  /\ exists (rq : fetch_request) (answer : response) (plan : value),
       upstream_request key req_body = Some rq
       /\ calls (snd (handler key net req_body quiet)) = [rq]
       /\ net rq = Resolved answer
       /\ (200 <= resp_status answer <= 299)%Z
       /\ body r = SUCCESS plan
       /\ is_array (own_prop plan (lit "weeks")) = true
       /\ errors (snd (handler key net req_body quiet)) = [].
Proof.
  destruct (handler_world key net req_body) as [S _].
  inversion S as [ | | | | | | | | | | | rq a t data plan Hf Hk Hrq Hn Hb Hok
                         Hd Hnn Hp Hpn Hw Hw0 ];
    simpl; intros [<- | []] Hs; simpl in Hs; try discriminate.
  split; [exact Hf | ]. split; [exact Hk | ].
  exists rq, a, plan. apply ok_iff in Hok.
  repeat split; try assumption; try reflexivity; apply Hok.
Qed.

Lemma success_only_with_weeks_witness :
  has_all_fields hiit_request = true
  /\ configured test_key = true
  /\ exists (rq : fetch_request) (answer : response) (plan : value),
       upstream_request test_key hiit_request = Some rq
       /\ calls (snd (handler test_key
                        (answering 200 (completion three_weeks_content))
                        hiit_request quiet)) = [rq]
       /\ answering 200 (completion three_weeks_content) rq = Resolved answer
       /\ (200 <= resp_status answer <= 299)%Z
       /\ body {| status := 200; body := SUCCESS three_weeks_plan |}
          = SUCCESS plan
       /\ is_array (own_prop plan (lit "weeks")) = true
       /\ errors (snd (handler test_key
                         (answering 200 (completion three_weeks_content))
                         hiit_request quiet)) = [].
Proof.
  apply (success_only_with_weeks test_key
           (answering 200 (completion three_weeks_content)) hiit_request
           {| status := 200; body := SUCCESS three_weeks_plan |}).
  - vm_compute. left. reflexivity.
  - reflexivity.
Defined.

(** X3.  The outbound calls depend on the request and the credential
    alone, never on what upstream answers.  When the four fields are
    truthy, the credential is a non-empty string and the prompt can be
    rendered, there is exactly one call: a POST to the chat-completions
    endpoint, with the JSON content type and the credential as bearer
    token, for the model [gpt-4.1-mini] at temperature 0.8, the system
    message first and the prompt of the four fields as the user message.
    Otherwise there is no call. *)
Theorem calls_decided_before_the_answer (key : option jsstring)
        (net : fetch_request -> fetch_result) (req_body : value) :
  calls (snd (handler key net req_body quiet)) =
  match key,
        buildPrompt {| goal := own_prop req_body (lit "goal");
                       experience := own_prop req_body (lit "experience");
                       style := own_prop req_body (lit "style");
                       daysPerWeek := own_prop req_body (lit "daysPerWeek") |}
  with
  | Some k, Some prompt =>
      if has_all_fields req_body && negb (is_empty k) then
        [{| url := lit "https://api.openai.com/v1/chat/completions";
            method := lit "POST";
            headers := [(lit "Content-Type", lit "application/json");
                        (lit "Authorization", lit "Bearer " ++ k)];
            payload :=
              VObj [(lit "model", VStr (lit "gpt-4.1-mini"));
                    (lit "messages",
                     VArr [VObj [(lit "role", VStr (lit "system"));
                                 (lit "content",
                                  VStr (lit "You are a helpful fitness coach that responds ONLY with valid JSON."))];
                           VObj [(lit "role", VStr (lit "user"));
                                 (lit "content", VStr prompt)]]);
                    (lit "temperature",
                     VNum (JsNumber.of_decimal false 8 (-1)))] |}]
      else []
  | _, _ => []
  end.
Proof.
  fold (profile_of req_body).
  destruct (handler_world key net req_body) as [S _].
  assert (E : forall rq, upstream_request key req_body = Some rq ->
                         exists prompt,
                           buildPrompt (profile_of req_body) = Some prompt
                           /\ rq = completion_request key prompt).
  { unfold upstream_request. intros rq.
    destruct (buildPrompt (profile_of req_body)) as [prompt | ];
      simpl; [ | discriminate].
    intros H. injection H as <-. exists prompt. split; reflexivity. }
  assert (K : configured key = true ->
              exists k, key = Some k /\ negb (is_empty k) = true).
  { destruct key as [k | ]; [ | discriminate].
    intros H. exists k. split; [reflexivity | exact H]. }
  assert (N : upstream_request key req_body = None ->
              buildPrompt (profile_of req_body) = None).
  { unfold upstream_request.
    destruct (buildPrompt (profile_of req_body)); [discriminate | reflexivity]. }
  inversion S;
    try match goal with
        | H : upstream_request _ _ = Some _ |- _ =>
            destruct (E _ H) as [prompt [-> ->]]
        | H : upstream_request _ _ = None |- _ => rewrite (N H)
        end;
    try match goal with
        | H : configured _ = true |- _ =>
            destruct (K H) as [k [-> ->]]
        end;
    repeat match goal with
           | H : has_all_fields _ = _ |- _ => rewrite H; clear H
           end;
    simpl; try reflexivity.
  - destruct key; destruct (buildPrompt (profile_of req_body)); reflexivity.
  - destruct key as [k | ];
      destruct (buildPrompt (profile_of req_body)); try reflexivity.
    match goal with
    | H : configured (Some k) = false |- _ =>
        unfold configured in H; simpl in H; rewrite H
    end.
    reflexivity.
  - destruct key; reflexivity.
Qed.

(** X4.  At most one line is logged, and none exactly when the reply is
    the 400, the key-not-configured 500, the missing-weeks 500 or the
    200: the 502, the not-valid-JSON 500 and the unexpected 500 are each
    logged once. *)
Theorem logged_unless_validated (key : option jsstring)
        (net : fetch_request -> fetch_result) (req_body : value) :
  let w := snd (handler key net req_body quiet) in
  List.length (errors w) <= 1
  /\ (errors w = [] <->
      exists r, replies w = [r]
                /\ (body r = MISSING_FIELDS \/ body r = KEY_NOT_CONFIGURED
                    \/ body r = MISSING_WEEKS \/ status r = 200%Z)).
Proof.
  cbv zeta. destruct (handler_world key net req_body) as [S _].
  inversion S; simpl; (split; [lia | ]);
    first
      [ split; [ intros _; eexists; split; [reflexivity | simpl; tauto]
               | intros _; reflexivity ]
      | split; [ discriminate | ];
        intros [r0 [Hr Hor]]; injection Hr as <-; simpl in Hor;
        exfalso; destruct Hor as [Hx | [Hx | [Hx | Hx]]]; discriminate ].
Qed.

(** ** Failures of the transport and of the answer *)

(** X5.  When the call to upstream is rejected (the service cannot be
    reached), the reply is the unexpected 500, not the 502, and the error
    is logged. *)
Theorem rejected_call_unexpected (key : option jsstring)
        (net : fetch_request -> fetch_result) (req_body : value)
        (rq : fetch_request) :
  has_all_fields req_body = true -> configured key = true ->
  upstream_request key req_body = Some rq ->
  net rq = Rejected ->
  handler key net req_body quiet =
  (Returned tt,
   {| calls := [rq];
      errors := [[LogValue (VStr (lit "Server error in /api/generate-workout-plan:"));
                  LogError NetworkError]];
      replies := [{| status := 500; body := UNEXPECTED |}] |}).
Proof.
  intros Hf Hk Hrq Hn.
  rewrite handler_of_attempt, (attempt_upstream key net req_body Hf Hk),
    Hrq, Hn.
  reflexivity.
Qed.

Lemma rejected_call_unexpected_witness :
  handler test_key unreachable hiit_request quiet =
  (Returned tt,
   {| calls := [completion_request test_key hiit_prompt];
      errors := [[LogValue (VStr (lit "Server error in /api/generate-workout-plan:"));
                  LogError NetworkError]];
      replies := [{| status := 500; body := UNEXPECTED |}] |}).
Proof.
  apply (rejected_call_unexpected test_key unreachable hiit_request
           (completion_request test_key hiit_prompt)).
  - reflexivity.
  - reflexivity.
  - vm_compute. reflexivity.
  - reflexivity.
Defined.

(** X6.  When the body of the upstream answer cannot be read, the reply is
    the unexpected 500 whatever the status of the answer: a failed status
    does not make it a 502. *)
Theorem unreadable_answer_unexpected (key : option jsstring)
        (net : fetch_request -> fetch_result) (req_body : value)
        (rq : fetch_request) (r : response) :
  has_all_fields req_body = true -> configured key = true ->
  upstream_request key req_body = Some rq ->
  net rq = Resolved r ->
  resp_body r = None ->
  handler key net req_body quiet =
  (Returned tt,
   {| calls := [rq];
      errors := [[LogValue (VStr (lit "Server error in /api/generate-workout-plan:"));
                  LogError NetworkError]];
      replies := [{| status := 500; body := UNEXPECTED |}] |}).
Proof.
  intros Hf Hk Hrq Hn Hb.
  rewrite (handler_upstream key net req_body rq r Hf Hk Hrq Hn).
  unfold after_answer. rewrite Hb. reflexivity.
Qed.

Lemma unreadable_answer_unexpected_witness :
  handler test_key
          (fun _ => Resolved {| resp_status := 503; resp_body := None |})
          hiit_request quiet =
  (Returned tt,
   {| calls := [completion_request test_key hiit_prompt];
      errors := [[LogValue (VStr (lit "Server error in /api/generate-workout-plan:"));
                  LogError NetworkError]];
      replies := [{| status := 500; body := UNEXPECTED |}] |}).
Proof.
  apply (unreadable_answer_unexpected test_key
           (fun _ => Resolved {| resp_status := 503; resp_body := None |})
           hiit_request (completion_request test_key hiit_prompt)
           {| resp_status := 503; resp_body := None |}).
  - reflexivity.
  - reflexivity.
  - vm_compute. reflexivity.
  - reflexivity.
  - reflexivity.
Defined.

(** X7.  An upstream success whose body is not JSON text is answered with
    the unexpected 500: the not-valid-JSON message is kept for the content
    inside the body. *)
Theorem non_json_answer_unexpected (key : option jsstring)
        (net : fetch_request -> fetch_result) (req_body : value)
        (rq : fetch_request) (r : response) (t : jsstring) :
  has_all_fields req_body = true -> configured key = true ->
  upstream_request key req_body = Some rq ->
  net rq = Resolved r ->
  (200 <= resp_status r <= 299)%Z ->
  resp_body r = Some t ->
  JSON.parse t = None ->
  handler key net req_body quiet =
  (Returned tt,
   {| calls := [rq];
      errors := [[LogValue (VStr (lit "Server error in /api/generate-workout-plan:"));
                  LogError SyntaxError]];
      replies := [{| status := 500; body := UNEXPECTED |}] |}).
Proof.
  intros Hf Hk Hrq Hn Hs Hb Hd.
  rewrite (handler_upstream key net req_body rq r Hf Hk Hrq Hn).
  unfold after_answer. rewrite Hb.
  apply ok_iff in Hs. rewrite Hs, Hd. reflexivity.
Qed.

Lemma non_json_answer_unexpected_witness :
  handler test_key (answering 200 (lit "<html>Bad gateway</html>"))
          hiit_request quiet =
  (Returned tt,
   {| calls := [completion_request test_key hiit_prompt];
      errors := [[LogValue (VStr (lit "Server error in /api/generate-workout-plan:"));
                  LogError SyntaxError]];
      replies := [{| status := 500; body := UNEXPECTED |}] |}).
Proof.
  apply (non_json_answer_unexpected test_key
           (answering 200 (lit "<html>Bad gateway</html>"))
           hiit_request (completion_request test_key hiit_prompt)
           {| resp_status := 200;
              resp_body := Some (lit "<html>Bad gateway</html>") |}
           (lit "<html>Bad gateway</html>")).
  - reflexivity.
  - reflexivity.
  - vm_compute. reflexivity.
  - reflexivity.
  - simpl. lia.
  - reflexivity.
  - vm_compute. reflexivity.
Defined.

(** X8.  An upstream success whose body is JSON text for [null] is
    answered with the unexpected 500: reading [data.choices] throws. *)
Theorem null_answer_is_unexpected (key : option jsstring)
        (net : fetch_request -> fetch_result) (req_body : value)
        (rq : fetch_request) (r : response) (t : jsstring) :
  has_all_fields req_body = true -> configured key = true ->
  upstream_request key req_body = Some rq ->
  net rq = Resolved r ->
  (200 <= resp_status r <= 299)%Z ->
  resp_body r = Some t ->
  JSON.parse t = Some VNull ->
  handler key net req_body quiet =
  (Returned tt,
   {| calls := [rq];
      errors := [[LogValue (VStr (lit "Server error in /api/generate-workout-plan:"));
                  LogError TypeError]];
      replies := [{| status := 500; body := UNEXPECTED |}] |}).
Proof.
  intros Hf Hk Hrq Hn Hs Hb Hd.
  rewrite (handler_upstream key net req_body rq r Hf Hk Hrq Hn).
  unfold after_answer. rewrite Hb.
  apply ok_iff in Hs. rewrite Hs, Hd. reflexivity.
Qed.

Lemma null_answer_is_unexpected_witness :
  handler test_key (answering 200 (lit " null ")) hiit_request quiet =
  (Returned tt,
   {| calls := [completion_request test_key hiit_prompt];
      errors := [[LogValue (VStr (lit "Server error in /api/generate-workout-plan:"));
                  LogError TypeError]];
      replies := [{| status := 500; body := UNEXPECTED |}] |}).
Proof.
  apply (null_answer_is_unexpected test_key (answering 200 (lit " null "))
           hiit_request (completion_request test_key hiit_prompt)
           {| resp_status := 200; resp_body := Some (lit " null ") |}
           (lit " null ")).
  - reflexivity.
  - reflexivity.
  - vm_compute. reflexivity.
  - reflexivity.
  - simpl. lia.
  - reflexivity.
  - vm_compute. reflexivity.
Defined.

(** X9.  Whenever the first completion content parses to [null], reading
    [plan.weeks] throws and the reply is the unexpected 500. *)
Theorem null_plan_is_unexpected (key : option jsstring)
        (net : fetch_request -> fetch_result) (req_body : value)
        (rq : fetch_request) (r : response) (t : jsstring) (data : value) :
  has_all_fields req_body = true -> configured key = true ->
  upstream_request key req_body = Some rq ->
  net rq = Resolved r ->
  (200 <= resp_status r <= 299)%Z ->
  resp_body r = Some t ->
  JSON.parse t = Some data ->
  JsValue.truthy (content_of data) = true ->
  JSON_parse (content_of data) = Returned VNull ->
  handler key net req_body quiet =
  (Returned tt,
   {| calls := [rq];
      errors := [[LogValue (VStr (lit "Server error in /api/generate-workout-plan:"));
                  LogError TypeError]];
      replies := [{| status := 500; body := UNEXPECTED |}] |}).
Proof.
  intros Hf Hk Hrq Hn Hs Hb Hd Hc Hp.
  assert (Hnn : nullish data = false).
  { destruct (nullish data) eqn:Hnull; [ | reflexivity].
    rewrite (content_of_nullish data Hnull) in Hc. discriminate. }
  rewrite (handler_upstream key net req_body rq r Hf Hk Hrq Hn).
  unfold after_answer. rewrite Hb.
  apply ok_iff in Hs. rewrite Hs, Hd, Hnn.
  rewrite (parsed_content_truthy _ Hc), Hp. reflexivity.
Qed.

Lemma null_plan_is_unexpected_witness :
  handler test_key (answering 200 (completion (quoted " null")))
          hiit_request quiet =
  (Returned tt,
   {| calls := [completion_request test_key hiit_prompt];
      errors := [[LogValue (VStr (lit "Server error in /api/generate-workout-plan:"));
                  LogError TypeError]];
      replies := [{| status := 500; body := UNEXPECTED |}] |}).
Proof.
  apply (null_plan_is_unexpected test_key
           (answering 200 (completion (quoted " null")))
           hiit_request (completion_request test_key hiit_prompt)
           {| resp_status := 200;
              resp_body := Some (completion (quoted " null")) |}
           (completion (quoted " null"))
           (VObj [(lit "choices",
                   VArr [VObj [(lit "message",
                                VObj [(lit "role", VStr (lit "assistant"));
                                      (lit "content", VStr (lit " null"))])]])])).
  - reflexivity.
  - reflexivity.
  - vm_compute. reflexivity.
  - reflexivity.
  - simpl. lia.
  - reflexivity.
  - vm_compute. reflexivity.
  - reflexivity.
  - vm_compute. reflexivity.
Defined.

(** ** The plan *)

(** X10.  For every complete request, a content that parses to a plan
    whose [weeks] is an array, of any length and with anything else
    beside it, is answered with status 200 and the plan as parsed. *)
Theorem plan_with_weeks_relayed (key : option jsstring)
        (net : fetch_request -> fetch_result) (req_body : value)
        (rq : fetch_request) (r : response) (t : jsstring)
        (data plan : value) (weeks : list value) :
  has_all_fields req_body = true -> configured key = true ->
  upstream_request key req_body = Some rq ->
  net rq = Resolved r ->
  (200 <= resp_status r <= 299)%Z ->
  resp_body r = Some t ->
  JSON.parse t = Some data ->
  JSON_parse (content_of data) = Returned plan ->
  own_prop plan (lit "weeks") = VArr weeks ->
  handler key net req_body quiet =
  (Returned tt,
   {| calls := [rq];
      errors := [];
      replies :=
        [{| status := 200;
            body := VObj [(lit "ok", VBool true); (lit "plan", plan)] |}] |}).
Proof.
  intros Hf Hk Hrq Hn Hs Hb Hd Hp Hw.
  assert (Harr : is_array (own_prop plan (lit "weeks")) = true)
    by (rewrite Hw; reflexivity).
  assert (Htruthy : JsValue.truthy (content_of data) = true).
  { destruct (JsValue.truthy (content_of data)) eqn:Hc; [reflexivity | ].
    rewrite (falsy_content_has_no_weeks _ _ Hc Hp) in Harr. discriminate. }
  assert (Hnn : nullish data = false).
  { destruct (nullish data) eqn:Hnull; [ | reflexivity].
    rewrite (content_of_nullish data Hnull) in Htruthy. discriminate. }
  rewrite (handler_upstream key net req_body rq r Hf Hk Hrq Hn).
  unfold after_answer. rewrite Hb.
  apply ok_iff in Hs. rewrite Hs, Hd, Hnn.
  rewrite (parsed_content_truthy _ Htruthy), Hp.
  rewrite (weeks_array_not_nullish plan Harr), Harr. reflexivity.
Qed.

Lemma plan_with_weeks_relayed_witness :
  handler test_key (answering 201 (completion empty_weeks_content))
          hiit_request quiet =
  (Returned tt,
   {| calls := [completion_request test_key hiit_prompt];
      errors := [];
      replies :=
        [{| status := 200;
            body := VObj [(lit "ok", VBool true);
                          (lit "plan", VObj [(lit "weeks", VArr [])])] |}] |}).
Proof.
  apply (plan_with_weeks_relayed test_key
           (answering 201 (completion empty_weeks_content))
           hiit_request (completion_request test_key hiit_prompt)
           {| resp_status := 201;
              resp_body := Some (completion empty_weeks_content) |}
           (completion empty_weeks_content)
           (VObj [(lit "choices",
                   VArr [VObj [(lit "message",
                                VObj [(lit "role", VStr (lit "assistant"));
                                      (lit "content",
                                       VStr (lit "{" ++ quoted "weeks"
                                             ++ lit ":[]}"))])]])])
           (VObj [(lit "weeks", VArr [])]) []).
  - reflexivity.
  - reflexivity.
  - vm_compute. reflexivity.
  - reflexivity.
  - simpl. lia.
  - reflexivity.
  - vm_compute. reflexivity.
  - vm_compute. reflexivity.
  - reflexivity.
Defined.

(** X11.  For every complete request, a truthy content that parses to
    anything but [null] without a [weeks] array (an object without the
    field or with a [weeks] that is no array, a number, a string, a
    boolean, an array) is answered with the missing-weeks 500, and nothing
    is logged. *)
Theorem plan_without_weeks_rejected (key : option jsstring)
        (net : fetch_request -> fetch_result) (req_body : value)
        (rq : fetch_request) (r : response) (t : jsstring)
        (data plan : value) :
  has_all_fields req_body = true -> configured key = true ->
  upstream_request key req_body = Some rq ->
  net rq = Resolved r ->
  (200 <= resp_status r <= 299)%Z ->
  resp_body r = Some t ->
  JSON.parse t = Some data ->
  JsValue.truthy (content_of data) = true ->
  JSON_parse (content_of data) = Returned plan ->
  plan <> VNull ->
  is_array (own_prop plan (lit "weeks")) = false ->
  handler key net req_body quiet =
  (Returned tt,
   {| calls := [rq];
      errors := [];
      replies := [{| status := 500; body := MISSING_WEEKS |}] |}).
Proof.
  intros Hf Hk Hrq Hn Hs Hb Hd Hc Hp Hnull Hw.
  assert (Hnn : nullish data = false).
  { destruct (nullish data) eqn:E; [ | reflexivity].
    rewrite (content_of_nullish data E) in Hc. discriminate. }
  assert (Hpn : nullish plan = false).
  { destruct plan; try reflexivity; [ | congruence].
    (* [JSON.parse] never yields [undefined] *)
    exfalso. unfold JSON_parse in Hp.
    destruct (ToString (content_of data)) as [txt | ]; [ | discriminate].
    destruct (JSON.parse txt) as [x | ] eqn:Ex; [ | discriminate].
    injection Hp as ->.
    apply (JsonShape.parse_defined txt). exact Ex. }
  rewrite (handler_upstream key net req_body rq r Hf Hk Hrq Hn).
  unfold after_answer. rewrite Hb.
  apply ok_iff in Hs. rewrite Hs, Hd, Hnn.
  rewrite (parsed_content_truthy _ Hc), Hp, Hpn, Hw. reflexivity.
Qed.

Lemma plan_without_weeks_rejected_witness :
  handler test_key
          (answering 200 (completion
                            (DQUOTE ++ lit "{" ++ escaped "weeks" ++ lit ":3}"
                             ++ DQUOTE)))
          hiit_request quiet =
  (Returned tt,
   {| calls := [completion_request test_key hiit_prompt];
      errors := [];
      replies := [{| status := 500; body := MISSING_WEEKS |}] |}).
Proof.
  apply (plan_without_weeks_rejected test_key
           (answering 200 (completion
                             (DQUOTE ++ lit "{" ++ escaped "weeks"
                              ++ lit ":3}" ++ DQUOTE)))
           hiit_request (completion_request test_key hiit_prompt)
           {| resp_status := 200;
              resp_body := Some (completion
                                   (DQUOTE ++ lit "{" ++ escaped "weeks"
                                    ++ lit ":3}" ++ DQUOTE)) |}
           (completion (DQUOTE ++ lit "{" ++ escaped "weeks" ++ lit ":3}"
                        ++ DQUOTE))
           (VObj [(lit "choices",
                   VArr [VObj [(lit "message",
                                VObj [(lit "role", VStr (lit "assistant"));
                                      (lit "content",
                                       VStr (lit "{" ++ quoted "weeks"
                                             ++ lit ":3}"))])]])])
           (VObj [(lit "weeks", VNum (JsNumber.of_Z 3))])).
  - reflexivity.
  - reflexivity.
  - vm_compute. reflexivity.
  - reflexivity.
  - simpl. lia.
  - reflexivity.
  - vm_compute. reflexivity.
  - reflexivity.
  - vm_compute. reflexivity.
  - discriminate.
  - reflexivity.
Defined.

Lemma object_never_parses (props : list (jsstring * value)) :
  exists err, JSON_parse (VObj props) = Threw err.
Proof.
  unfold JSON_parse. simpl ToString.
  destruct (lookup (lit "toString") props).
  - exists TypeError. reflexivity.
  - exists SyntaxError.
    replace (JSON.parse (lit "[object Object]")) with (@None value)
      by (vm_compute; reflexivity).
    reflexivity.
Qed.

(** X12.  A first completion content that is itself an object, rather
    than a string of JSON text, is never accepted, even when it holds a
    [weeks] array: the reply is the not-valid-JSON 500. *)
Theorem object_content_rejected (key : option jsstring)
        (net : fetch_request -> fetch_result) (req_body : value)
        (rq : fetch_request) (r : response) (t : jsstring)
        (data : value) (props : list (jsstring * value)) :
  has_all_fields req_body = true -> configured key = true ->
  upstream_request key req_body = Some rq ->
  net rq = Resolved r ->
  (200 <= resp_status r <= 299)%Z ->
  resp_body r = Some t ->
  JSON.parse t = Some data ->
  content_of data = VObj props ->
  let w := snd (handler key net req_body quiet) in
  replies w = [{| status := 500; body := NOT_VALID_JSON |}]
  /\ calls w = [rq]
  /\ List.length (errors w) = 1.
Proof.
  intros Hf Hk Hrq Hn Hs Hb Hd Hc. cbv zeta.
  assert (Hnn : nullish data = false).
  { destruct (nullish data) eqn:E; [ | reflexivity].
    rewrite (content_of_nullish data E) in Hc. discriminate. }
  destruct (object_never_parses props) as [err He].
  rewrite (handler_upstream key net req_body rq r Hf Hk Hrq Hn).
  unfold after_answer. rewrite Hb.
  apply ok_iff in Hs. rewrite Hs, Hd, Hnn, Hc.
  rewrite (parsed_content_truthy (VObj props) eq_refl), He.
  repeat split.
Qed.

Lemma object_content_rejected_witness :
  let t := completion (lit "{" ++ quoted "weeks" ++ lit ":[]}") in
  let w := snd (handler test_key (answering 200 t) hiit_request quiet) in
  replies w = [{| status := 500; body := NOT_VALID_JSON |}]
  /\ calls w = [completion_request test_key hiit_prompt]
  /\ List.length (errors w) = 1.
Proof.
  cbv zeta.
  apply (object_content_rejected test_key
           (answering 200 (completion (lit "{" ++ quoted "weeks" ++ lit ":[]}")))
           hiit_request (completion_request test_key hiit_prompt)
           {| resp_status := 200;
              resp_body := Some (completion
                                   (lit "{" ++ quoted "weeks" ++ lit ":[]}")) |}
           (completion (lit "{" ++ quoted "weeks" ++ lit ":[]}"))
           (VObj [(lit "choices",
                   VArr [VObj [(lit "message",
                                VObj [(lit "role", VStr (lit "assistant"));
                                      (lit "content",
                                       VObj [(lit "weeks", VArr [])])])]])])
           [(lit "weeks", VArr [])]).
  - reflexivity.
  - reflexivity.
  - vm_compute. reflexivity.
  - reflexivity.
  - simpl. lia.
  - reflexivity.
  - vm_compute. reflexivity.
  - reflexivity.
Defined.

(** ** The request body *)

(** The handler reads the body through its four fields only. *)
Lemma attempt_reads_four_fields (key : option jsstring)
      (net : fetch_request -> fetch_result) (b b' : value) :
  (forall k, In k required_fields -> own_prop b k = own_prop b' k) ->
  attempt key net b = attempt key net b'.
Proof.
  intros H. unfold attempt. cbv zeta. rewrite !get_source.
  rewrite (H (lit "goal")), (H (lit "experience")), (H (lit "style")),
    (H (lit "daysPerWeek")); try reflexivity.
  all: unfold required_fields; simpl; tauto.
Qed.

(** X13.  The reply depends on the body through its four fields alone:
    two bodies that agree on [goal], [experience], [style] and
    [daysPerWeek] are handled alike, whatever else they hold. *)
Theorem only_four_fields_matter (key : option jsstring)
        (net : fetch_request -> fetch_result) (b b' : value) (w : world) :
  (forall k, In k required_fields -> own_prop b k = own_prop b' k) ->
  handler key net b w = handler key net b' w.
Proof.
  intros H. unfold handler.
  rewrite (attempt_reads_four_fields key net b b' H). reflexivity.
Qed.

Lemma only_four_fields_matter_witness :
  handler test_key (answering 429 (lit "rate limited"))
          hiit_request_with_note quiet
  = handler test_key (answering 429 (lit "rate limited")) hiit_request quiet.
Proof.
  apply (only_four_fields_matter test_key (answering 429 (lit "rate limited"))
           hiit_request_with_note hiit_request quiet).
  intros k [<- | [<- | [<- | [<- | []]]]]; reflexivity.
Defined.

(** X14.  A body that is not a plain object (an array, a string, a
    number, a boolean, [null], [undefined]) has none of the four fields
    and is answered with the 400 missing-fields reply, without a call. *)
Theorem non_object_body_rejected (key : option jsstring)
        (net : fetch_request -> fetch_result) (req_body : value) :
  (forall props, req_body <> VObj props) ->
  handler key net req_body quiet =
  (Returned tt,
   {| calls := []; errors := [];
      replies := [{| status := 400; body := MISSING_FIELDS |}] |}).
Proof.
  intros Hn.
  assert (Hf : has_all_fields req_body = false).
  { destruct req_body; try reflexivity. exfalso. apply (Hn props).
    reflexivity. }
  rewrite handler_of_attempt,
    (proj1 (attempt_guards key net req_body quiet) Hf).
  reflexivity.
Qed.

Lemma non_object_body_rejected_witness :
  handler test_key unreachable
          (VArr [VStr (lit "fat-loss"); VStr (lit "beginner");
                 VStr (lit "HIIT"); VNum (JsNumber.of_Z 3)]) quiet =
  (Returned tt,
   {| calls := []; errors := [];
      replies := [{| status := 400; body := MISSING_FIELDS |}] |}).
Proof.
  apply (non_object_body_rejected test_key unreachable
           (VArr [VStr (lit "fat-loss"); VStr (lit "beginner");
                  VStr (lit "HIIT"); VNum (JsNumber.of_Z 3)])).
  intros props. discriminate.
Defined.

Lemma opaque_object_unrenderable (props : list (jsstring * value)) :
  lookup (lit "toString") props <> None -> ToString (VObj props) = None.
Proof.
  intros H. simpl. destruct (lookup (lit "toString") props); congruence.
Qed.

Lemma unrenderable_field_no_prompt (p : WorkoutPlanRequest) :
  ToString (goal p) = None \/ ToString (experience p) = None
  \/ ToString (style p) = None \/ ToString (daysPerWeek p) = None ->
  buildPrompt p = None.
Proof.
  unfold buildPrompt.
  intros [H | [H | [H | H]]]; rewrite H;
    repeat match goal with
           | |- context [match ?x with Some _ => _ | None => _ end] =>
               destruct x
           end; reflexivity.
Qed.

(** X15.  A complete request one of whose four fields is an object with
    an own [toString] property cannot be rendered into the prompt: the
    template throws, no call goes upstream and the reply is the
    unexpected 500. *)
Theorem opaque_field_unexpected (key : option jsstring)
        (net : fetch_request -> fetch_result) (req_body : value)
        (k : jsstring) (props : list (jsstring * value)) :
  has_all_fields req_body = true -> configured key = true ->
  In k required_fields ->
  own_prop req_body k = VObj props ->
  lookup (lit "toString") props <> None ->
  handler key net req_body quiet =
  (Returned tt,
   {| calls := [];
      errors := [[LogValue (VStr (lit "Server error in /api/generate-workout-plan:"));
                  LogError TypeError]];
      replies := [{| status := 500; body := UNEXPECTED |}] |}).
Proof.
  intros Hf Hk Hin Hp Hts.
  assert (Hnone : upstream_request key req_body = None).
  { unfold upstream_request.
    rewrite (unrenderable_field_no_prompt (profile_of req_body));
      [reflexivity | ].
    pose proof (opaque_object_unrenderable props Hts) as Ho.
    unfold profile_of. simpl.
    destruct Hin as [<- | [<- | [<- | [<- | []]]]]; rewrite Hp; tauto. }
  rewrite handler_of_attempt, (attempt_upstream key net req_body Hf Hk),
    Hnone.
  reflexivity.
Qed.

Lemma opaque_field_unexpected_witness :
  handler test_key (answering 200 (completion three_weeks_content))
          opaque_goal_request quiet =
  (Returned tt,
   {| calls := [];
      errors := [[LogValue (VStr (lit "Server error in /api/generate-workout-plan:"));
                  LogError TypeError]];
      replies := [{| status := 500; body := UNEXPECTED |}] |}).
Proof.
  apply (opaque_field_unexpected test_key
           (answering 200 (completion three_weeks_content))
           opaque_goal_request (lit "goal") [(lit "toString", VNull)]).
  - reflexivity.
  - reflexivity.
  - left. reflexivity.
  - reflexivity.
  - discriminate.
Defined.

(** ** Start-up and the handler *)

(** X16.  The warning printed at start-up is printed exactly when every
    complete request will be answered with the key-not-configured 500. *)
Theorem warning_iff_requests_fail (env_port key : option jsstring) :
  warned (startup env_port key) = [KEY_WARNING]
  <-> (forall (net : fetch_request -> fetch_result) (req_body : value),
         has_all_fields req_body = true ->
         handler key net req_body quiet
         = (Returned tt, only_reply 500 KEY_NOT_CONFIGURED)).
Proof.
  unfold startup. cbv zeta. simpl warned.
  fold (configured key). split.
  - intros Hw net req_body Hf.
    destruct (configured key) eqn:Hk; [discriminate | ].
    rewrite handler_of_attempt,
      (proj2 (attempt_guards key net req_body quiet) Hf Hk).
    reflexivity.
  - intros H. destruct (configured key) eqn:Hk; [ | reflexivity].
    exfalso.
    specialize (H unreachable hiit_request eq_refl).
    rewrite handler_of_attempt,
      (attempt_upstream key unreachable hiit_request eq_refl Hk),
      (hiit_upstream key) in H.
    simpl in H. discriminate.
Qed.

Lemma warning_iff_requests_fail_witness :
  handler None unreachable hiit_request quiet
  = (Returned tt, only_reply 500 KEY_NOT_CONFIGURED).
Proof.
  apply (proj1 (warning_iff_requests_fail None None) eq_refl
           unreachable hiit_request).
  reflexivity.
Defined.

(** ** The prompt *)

(** X17.  The template does not keep its fields apart: text moved from
    the end of [goal] to the start of [experience], across the line that
    separates them, gives the same prompt. *)
Theorem prompt_fields_not_delimited (x y z s d : jsstring) :
  buildPrompt {| goal := VStr (x ++ before_experience ++ y);
                 experience := VStr z;
                 style := VStr s; daysPerWeek := VStr d |}
  = buildPrompt {| goal := VStr x;
                   experience := VStr (y ++ before_experience ++ z);
                   style := VStr s; daysPerWeek := VStr d |}.
Proof.
  unfold buildPrompt. simpl. unfold template. f_equal.
  rewrite <- !app_assoc. reflexivity.
Qed.

(** *** Fields of one line *)

Lemma split_at_line_feed (a a' r r' : jsstring) :
  ~ In 10%N a -> ~ In 10%N a' ->
  a ++ 10%N :: r = a' ++ 10%N :: r' -> a = a' /\ r = r'.
Proof.
  revert a'. induction a as [ | x a IH]; intros [ | y a'] Ha Ha' H;
    simpl in *.
  - inversion H. split; reflexivity.
  - inversion H. subst. tauto.
  - inversion H. subst. tauto.
  - inversion H. subst.
    destruct (IH a') as [-> ->]; [tauto | tauto | assumption | ].
    split; reflexivity.
Qed.

Lemma uint_units_one_line (d : Decimal.uint) :
  ~ In 10%N (JsNumber.uint_units d).
Proof.
  induction d; simpl; intros H; try tauto;
    destruct H as [H | H]; try discriminate; tauto.
Qed.

Lemma digits_one_line (n : N) : ~ In 10%N (JsNumber.digits n).
Proof. apply uint_units_one_line. Qed.

Lemma zeros_one_line (n : Z) : ~ In 10%N (JsNumber.zeros n).
Proof.
  unfold JsNumber.zeros. intros H. apply repeat_spec in H. discriminate.
Qed.

Lemma firstn_one_line (n : nat) (l : jsstring) :
  ~ In 10%N l -> ~ In 10%N (firstn n l).
Proof.
  intros H Hin. apply H. rewrite <- (firstn_skipn n l).
  apply in_or_app. left. exact Hin.
Qed.

Lemma skipn_one_line (n : nat) (l : jsstring) :
  ~ In 10%N l -> ~ In 10%N (skipn n l).
Proof.
  intros H Hin. apply H. rewrite <- (firstn_skipn n l).
  apply in_or_app. right. exact Hin.
Qed.

Lemma app_one_line (a b : jsstring) :
  ~ In 10%N a -> ~ In 10%N b -> ~ In 10%N (a ++ b).
Proof. intros Ha Hb H. apply in_app_or in H. tauto. Qed.

Lemma exponent_part_one_line (n : Z) :
  ~ In 10%N (JsNumber.exponent_part n).
Proof.
  unfold JsNumber.exponent_part.
  apply app_one_line; [simpl; intuition discriminate | ].
  apply app_one_line; [ | apply digits_one_line].
  destruct (n - 1 <? 0)%Z; simpl; intuition discriminate.
Qed.

Lemma layout_one_line (ds : jsstring) (n : Z) :
  ~ In 10%N ds -> ~ In 10%N (JsNumber.layout ds n).
Proof.
  intros H. unfold JsNumber.layout.
  assert (Hdot : ~ In 10%N (lit ".")) by (simpl; intuition discriminate).
  assert (Hzero : ~ In 10%N (lit "0.")) by (simpl; intuition discriminate).
  repeat match goal with
         | |- context [if ?c then _ else _] => destruct c
         end;
    repeat first [ assumption
                 | apply zeros_one_line
                 | apply firstn_one_line
                 | apply skipn_one_line
                 | apply exponent_part_one_line
                 | apply app_one_line ].
Qed.

(** The rendering of a number holds no line feed. *)
Lemma toString_one_line (x : JsNumber.number) :
  ~ In 10%N (JsNumber.toString x).
Proof.
  assert (Hpos : forall m e, ~ In 10%N (JsNumber.positive_toString m e)).
  { intros m e. unfold JsNumber.positive_toString.
    destruct (JsNumber.shortest _ m e _) as [s q].
    apply layout_one_line. apply digits_one_line. }
  destruct x as [s | [|] | | [|] m e]; simpl;
    try (intuition discriminate); try apply Hpos.
  intros [H | H]; [discriminate | exact (Hpos m e H)].
Qed.

Lemma some_inj {A : Type} (a b : A) : Some a = Some b -> a = b.
Proof. intros H. injection H as H. exact H. Qed.

(** X18.  Fields of one line are kept apart: when no string field holds a
    line feed, the prompt determines [goal], [experience] and [style], and
    the rendering of [daysPerWeek]. *)
Theorem one_line_fields_recovered (g e s g' e' s' : jsstring)
        (d d' : JsNumber.number) :
  ~ In 10%N g -> ~ In 10%N e -> ~ In 10%N s ->
  ~ In 10%N g' -> ~ In 10%N e' -> ~ In 10%N s' ->
  buildPrompt {| goal := VStr g; experience := VStr e;
                 style := VStr s; daysPerWeek := VNum d |}
  = buildPrompt {| goal := VStr g'; experience := VStr e';
                   style := VStr s'; daysPerWeek := VNum d' |} ->
  g = g' /\ e = e' /\ s = s'
  /\ JsNumber.toString d = JsNumber.toString d'.
Proof.
  intros Hg He Hs Hg' He' Hs' H.
  pose proof (toString_one_line d) as Hd.
  pose proof (toString_one_line d') as Hd'.
  change (Some (template g e s (JsNumber.toString d))
          = Some (template g' e' s' (JsNumber.toString d'))) in H.
  apply some_inj in H. unfold template in H.
  apply app_inv_head in H.
  change before_experience
    with (10%N :: lit "    - Experience level: ") in H.
  change before_style
    with (10%N :: lit "    - Preferred workout style: ") in H.
  change before_days with (10%N :: lit "    - Days per week: ") in H.
  rewrite <- !app_comm_cons in H.
  apply split_at_line_feed in H as [-> H]; [ | assumption | assumption].
  apply app_inv_head in H.
  apply split_at_line_feed in H as [-> H]; [ | assumption | assumption].
  apply app_inv_head in H.
  apply split_at_line_feed in H as [-> H]; [ | assumption | assumption].
  apply app_inv_head in H.
  assert (Hr : exists tail, requirements_head = 10%N :: tail)
    by (eexists; reflexivity).
  destruct Hr as [tail Hr]. rewrite Hr in H.
  rewrite <- !app_comm_cons in H.
  apply split_at_line_feed in H as [Hdd _]; [ | assumption | assumption].
  repeat split. exact Hdd.
Qed.

Lemma one_line_fields_recovered_witness :
  lit "fat-loss" = lit "fat-loss" /\ lit "beginner" = lit "beginner"
  /\ lit "HIIT" = lit "HIIT"
  /\ JsNumber.toString (JsNumber.of_Z 3)
     = JsNumber.toString (JsNumber.of_decimal false 30 (-1)).
Proof.
  apply (one_line_fields_recovered
           (lit "fat-loss") (lit "beginner") (lit "HIIT")
           (lit "fat-loss") (lit "beginner") (lit "HIIT")
           (JsNumber.of_Z 3) (JsNumber.of_decimal false 30 (-1))).
  1-6: (simpl; intuition discriminate).
  vm_compute. reflexivity.
Defined.

(** ** The reply and the request *)

Lemma after_answer_ignores_request (rq rq' : fetch_request) (r : response) :
  fst (after_answer rq r) = fst (after_answer rq' r)
  /\ errors (snd (after_answer rq r)) = errors (snd (after_answer rq' r))
  /\ replies (snd (after_answer rq r)) = replies (snd (after_answer rq' r)).
Proof.
  unfold after_answer.
  destruct (resp_body r); [ | repeat split].
  destruct (negb (ok r)); [repeat split | ].
  destruct (JSON.parse j) as [data | ]; [ | repeat split].
  destruct (nullish data); [repeat split | ].
  destruct (JSON_parse (parsed_content (content_of data))) as [plan | err];
    [ | repeat split].
  destruct (nullish plan); [repeat split | ].
  destruct (is_array (own_prop plan (lit "weeks"))); repeat split.
Qed.

(** X19.  Past validation the reply owes nothing to the request: two
    complete requests whose calls upstream settle alike get the same
    reply and the same log line, whatever their fields. *)
Theorem reply_owes_nothing_to_request (key : option jsstring)
        (net : fetch_request -> fetch_result) (b b' : value)
        (rq rq' : fetch_request) :
  has_all_fields b = true -> has_all_fields b' = true ->
  configured key = true ->
  upstream_request key b = Some rq ->
  upstream_request key b' = Some rq' ->
  net rq = net rq' ->
  replies (snd (handler key net b quiet))
  = replies (snd (handler key net b' quiet))
  /\ errors (snd (handler key net b quiet))
     = errors (snd (handler key net b' quiet)).
Proof.
  intros Hf Hf' Hk Hrq Hrq' Hn.
  rewrite !handler_of_attempt.
  rewrite (attempt_upstream key net b Hf Hk), Hrq.
  rewrite (attempt_upstream key net b' Hf' Hk), Hrq'.
  rewrite Hn. destruct (net rq') as [ | r]; [split; reflexivity | ].
  destruct (after_answer_ignores_request rq rq' r) as [H1 [H2 H3]].
  destruct (after_answer rq r) as [[[] | e] w];
    destruct (after_answer rq' r) as [[[] | e'] w'];
    simpl in *; try discriminate.
  - split; assumption.
  - injection H1 as <-. rewrite H2, H3. split; reflexivity.
Qed.

Lemma reply_owes_nothing_to_request_witness :
  let net := answering 200 (completion three_weeks_content) in
  replies (snd (handler test_key net hiit_request quiet))
  = replies (snd (handler test_key net strength_request quiet))
  /\ errors (snd (handler test_key net hiit_request quiet))
     = errors (snd (handler test_key net strength_request quiet)).
Proof.
  cbv zeta.
  apply (reply_owes_nothing_to_request test_key
           (answering 200 (completion three_weeks_content))
           hiit_request strength_request
           (completion_request test_key hiit_prompt)
           (completion_request test_key strength_prompt)).
  - reflexivity.
  - reflexivity.
  - reflexivity.
  - vm_compute. reflexivity.
  - vm_compute. reflexivity.
  - reflexivity.
Defined.

(** ** Requests one after another *)

Lemma after_quiet_r (w : world) : after w quiet = w.
Proof. destruct w. unfold after. simpl. rewrite !app_nil_r. reflexivity. Qed.

Lemma after_quiet_l (w : world) : after quiet w = w.
Proof. destruct w. reflexivity. Qed.

Lemma after_assoc (a b c : world) :
  after a (after b c) = after (after a b) c.
Proof. unfold after. simpl. rewrite !app_assoc. reflexivity. Qed.

Lemma framed_ret {A : Type} (a : A) : framed (ret a).
Proof. intros w. unfold ret. simpl. rewrite after_quiet_r. reflexivity. Qed.

Lemma framed_throw {A : Type} (e : js_error) : framed (@throw A e).
Proof. intros w. unfold throw. simpl. rewrite after_quiet_r. reflexivity. Qed.

Lemma framed_lift {A : Type} (r : result A) : framed (lift r).
Proof. intros w. unfold lift. simpl. rewrite after_quiet_r. reflexivity. Qed.

Lemma framed_send (s : Z) (b : value) : framed (send s b).
Proof. intros w. unfold send, after. simpl. rewrite !app_nil_r. reflexivity. Qed.

Lemma framed_console_error (args : list log_arg) :
  framed (console_error args).
Proof.
  intros w. unfold console_error, after. simpl. rewrite !app_nil_r.
  reflexivity.
Qed.

Lemma framed_fetch (net : fetch_request -> fetch_result)
      (rq : fetch_request) : framed (fetch net rq).
Proof.
  intros w. unfold fetch, after. simpl.
  destruct (net rq); simpl; rewrite !app_nil_r; reflexivity.
Qed.

(** The three ways of sequencing keep the frame. *)
Lemma framed_handle {A B : Type} (m : M A)
      (k : A -> M B) (h : js_error -> M B) :
  framed m -> (forall a, framed (k a)) -> (forall e, framed (h e)) ->
  framed (fun w => match m w with
                   | (Returned a, w') => k a w'
                   | (Threw e, w') => h e w'
                   end).
Proof.
  intros Hm Hk Hh w0. cbv beta. rewrite (Hm w0).
  destruct (m quiet) as [[a | e] w1]; simpl.
  - rewrite (Hk a (after w0 w1)), (Hk a w1). simpl.
    rewrite after_assoc. reflexivity.
  - rewrite (Hh e (after w0 w1)), (Hh e w1). simpl.
    rewrite after_assoc. reflexivity.
Qed.

Lemma framed_bind {A B : Type} (m : M A) (k : A -> M B) :
  framed m -> (forall a, framed (k a)) -> framed (bind m k).
Proof.
  intros Hm Hk.
  apply (framed_handle m k (fun e => throw e) Hm Hk).
  intros e. apply framed_throw.
Qed.

Lemma framed_try_catch {A : Type} (m : M A) (h : js_error -> M A) :
  framed m -> (forall e, framed (h e)) -> framed (try_catch m h).
Proof.
  intros Hm Hh.
  apply (framed_handle m (fun a => ret a) h Hm); [ | exact Hh].
  intros a. apply framed_ret.
Qed.

Lemma framed_try_or_return {A : Type} (m : M A)
      (h : js_error -> M unit) (k : A -> M unit) :
  framed m -> (forall e, framed (h e)) -> (forall a, framed (k a)) ->
  framed (try_or_return m h k).
Proof. intros Hm Hh Hk. apply (framed_handle m k h Hm Hk Hh). Qed.

Lemma framed_or_throw {A : Type} (e : js_error) (o : option A) :
  framed (or_throw e o).
Proof. destruct o; [apply framed_ret | apply framed_throw]. Qed.

Lemma framed_get (v : value) (k : jsstring) : framed (get v k).
Proof.
  unfold get. destruct (nullish v); [apply framed_throw | apply framed_ret].
Qed.

Lemma framed_text (r : response) : framed (text r).
Proof.
  unfold text. destruct (resp_body r); [apply framed_ret | apply framed_throw].
Qed.

Lemma framed_json (r : response) : framed (json r).
Proof.
  unfold json. apply framed_bind; [apply framed_text | ].
  intros t. destruct (JSON.parse t); [apply framed_ret | apply framed_throw].
Qed.

Lemma framed_first_content (data : value) : framed (first_content data).
Proof.
  unfold first_content. apply framed_bind; [apply framed_get | ].
  intros choices. apply framed_ret.
Qed.

Ltac frame :=
  repeat first
    [ apply framed_ret | apply framed_throw | apply framed_lift
    | apply framed_send | apply framed_console_error | apply framed_fetch
    | apply framed_get | apply framed_text | apply framed_json
    | apply framed_or_throw | apply framed_first_content
    | apply framed_bind | apply framed_try_catch
    | apply framed_try_or_return
    | match goal with
      | |- forall _, _ => intro
      | |- framed (if ?c then _ else _) => destruct c
      end ].

Lemma framed_handler (key : option jsstring)
      (net : fetch_request -> fetch_result) (b : value) :
  framed (handler key net b).
Proof. unfold handler, attempt, rescue. cbv zeta. frame. Qed.

(** X20.  The handler keeps nothing from one request to the next: started
    after any earlier calls, log lines and replies, it adds to them
    exactly what it does on its own, and always returns. *)
Theorem handler_reads_no_history (key : option jsstring)
        (net : fetch_request -> fetch_result) (req_body : value)
        (w0 : world) :
  handler key net req_body w0 =
  (Returned tt, after w0 (snd (handler key net req_body quiet))).
Proof.
  rewrite (framed_handler key net req_body w0).
  rewrite (proj2 (handler_world key net req_body)). reflexivity.
Qed.

(** X21.  Two requests handled one after the other get one reply each,
    in that order, each the reply it would get alone; the calls and the
    log lines add up likewise. *)
Theorem two_requests_two_replies (key : option jsstring)
        (net net' : fetch_request -> fetch_result) (b b' : value) :
  exists r r' : reply,
    replies (snd (handler key net b quiet)) = [r]
    /\ replies (snd (handler key net' b' quiet)) = [r']
    /\ bind (handler key net b) (fun _ => handler key net' b') quiet =
       (Returned tt,
        {| calls := calls (snd (handler key net b quiet))
                    ++ calls (snd (handler key net' b' quiet));
           errors := errors (snd (handler key net b quiet))
                     ++ errors (snd (handler key net' b' quiet));
           replies := [r; r'] |}).
Proof.
  destruct (handler_served key net b) as [w [H S]].
  destruct (handler_served key net' b') as [w' [H' S']].
  assert (R : forall k n x v, served k n x v -> exists r, replies v = [r])
    by (intros k n x v Sv; inversion Sv; eexists; reflexivity).
  destruct (R _ _ _ _ S) as [r Hr]. destruct (R _ _ _ _ S') as [r' Hr'].
  exists r, r'. rewrite H, H'. simpl.
  split; [exact Hr | ]. split; [exact Hr' | ].
  unfold bind. rewrite H.
  rewrite (framed_handler key net' b' w), H'.
  unfold after. simpl. rewrite Hr, Hr'. reflexivity.
Qed.
